(** * geoapy: a client for the ipgeolocation.io lookup service

    A shallow embedding of [geoapy.py] and the properties of its response
    model, validators, cache and request orchestration.

    Conventions of the embedding.
    - A Python [str] is a Rocq [string] holding the UTF-8 bytes of the text.
      Every character the program inspects (digits, the dot, the newline, the
      letters of the field names) is ASCII, and UTF-8 never reuses an ASCII
      byte inside a longer sequence, so comparing, searching and matching on
      the bytes agrees with Python on the code points.
    - A Python object of unknown type (a JSON value, a pickled value, an
      attribute) is a [pyval].
    - A call that may raise returns a [result]; a call that touches the file
      system, the shelve store or the network is an [Eff], a function from the
      [World] before the call to the outcome and the [World] after it. *)

From Stdlib Require Import ZArith Ascii String List Bool Lia.
From stdpp Require Import gmap strings list.

Set Warnings "-register-all".
Local Open Scope Z_scope.

(** ** Characters the source writes as escapes *)

Definition nl : string := String (ascii_of_nat 10) EmptyString.
Definition tab : string := String (ascii_of_nat 9) EmptyString.
Definition dquote : string := String (ascii_of_nat 34) EmptyString.

(** ** Python values *)

(** [PFloat m e] is the float [m * 2^e]; [PPath p] is a [pathlib.Path].
    A [PDict] lists its items in insertion order; a lookup takes the first
    item with the key (a Python dict has no second one). *)
Inductive pyval : Type :=
| PNone
| PBool (b : bool)
| PInt (z : Z)
| PFloat (m e : Z)
| PStr (s : string)
| PList (l : list pyval)
| PDict (d : list (string * pyval))
| PPath (p : string).

(** Truth value of an object, as [if value:] tests it. *)
Definition truthy (v : pyval) : bool :=
  match v with
  | PNone => false
  | PBool b => b
  | PInt z => negb (z =? 0)
  | PFloat m _ => negb (m =? 0)
  | PStr s => negb (String.eqb s EmptyString)
  | PList l => match l with [] => false | _ :: _ => true end
  | PDict d => match d with [] => false | _ :: _ => true end
  | PPath _ => true
  end.

(** ** Exceptions *)

(** The four exception classes of the module (lines 41-74) and the built-in
    ones its calls can raise. [DbmError] is [dbm.error], raised by
    [shelve.open]; [TransportError] stands for whatever [requests.get] or
    [r.json()] raises. *)
Inductive pyexn : Type :=
| KeyNotFound
| IncorrectIpFormat (iptype : string)
| FieldDoesNotExist (field : string)
| RequestError (code : pyval) (text : string)
| TypeError
| ValueError
| KeyError (key : string)
| AttributeError
| DbmError
| OSError
| TransportError.

Inductive result (A : Type) : Type :=
| Ok (a : A)
| Raise (e : pyexn).
Arguments Ok {A} a.
Arguments Raise {A} e.

Definition rbind {A B : Type} (c : result A) (k : A -> result B) : result B :=
  match c with
  | Ok a => k a
  | Raise e => Raise e
  end.

Declare Scope result_scope.
Delimit Scope result_scope with result.
Notation "x <-? c ;; k" := (rbind c (fun x => k))
  (at level 100, c at next level, right associativity) : result_scope.

(** ** Module constants (lines 6-38) *)

Definition __KEY_FILE : string := "key.txt".
Definition __URL : string := "https://api.ipgeolocation.io/ipgeo?".
Definition __API_PARAM : string := "apiKey".
Definition _FIELDS : list string :=
  [ "domain"; "ip"; "hostname"; "continent_code"; "continent_name";
    "country_code2"; "country_code3"; "country_name"; "country_capital";
    "state_prov"; "district"; "city"; "zipcode"; "latitude"; "longitude";
    "is_eu"; "calling_code"; "country_tld"; "languages"; "country_flag";
    "geoname_id"; "isp"; "connection_type"; "organization"; "asn";
    "currency"; "time_zone" ].
Definition _CACHE_FILE : string := "cache".

(** [x in _FIELDS], for a string [x]. *)
Definition in_FIELDS (x : string) : bool := existsb (String.eqb x) _FIELDS.

(** ** Dictionaries *)

Fixpoint dict_get (d : list (string * pyval)) (k : string) : option pyval :=
  match d with
  | [] => None
  | (k', v) :: t => if String.eqb k' k then Some v else dict_get t k
  end.

(** [d[k] = v]: replaces the value in place or appends a new item. *)
Fixpoint dict_set (d : list (string * pyval)) (k : string) (v : pyval)
  : list (string * pyval) :=
  match d with
  | [] => [(k, v)]
  | (k', v') :: t =>
      if String.eqb k' k then (k, v) :: t else (k', v') :: dict_set t k v
  end.

Definition dict_keys (d : list (string * pyval)) : list string := map fst d.

(** ** Strings *)

(** [needle in hay] on two strings: the substring test. *)
Fixpoint str_contains (needle hay : string) : bool :=
  String.prefix needle hay
  || match hay with
     | EmptyString => false
     | String _ t => str_contains needle t
     end.

(** [str.lower] on ASCII letters. The only strings it is applied to are
    names that passed the membership test of [formatfields], all ASCII. *)
Definition lower_char (c : ascii) : ascii :=
  let n := nat_of_ascii c in
  if ((65 <=? n) && (n <=? 90))%nat then ascii_of_nat (n + 32) else c.

Fixpoint lower (s : string) : string :=
  match s with
  | EmptyString => EmptyString
  | String c t => String (lower_char c) (lower t)
  end.

(** [sep.join(l)]. *)
Definition join (sep : string) (l : list string) : string := String.concat sep l.

(** [re.compile('\.').split(s)]: the pieces of [s] between its dots. *)
Fixpoint split_dot (s : string) : list string :=
  match s with
  | EmptyString => [EmptyString]
  | String c t =>
      if Ascii.eqb c "."%char then EmptyString :: split_dot t
      else match split_dot t with
           | [] => [String c EmptyString]
           | h :: r => String c h :: r
           end
  end.

(** ** [int] on strings *)

Definition is_space (c : ascii) : bool :=
  let n := nat_of_ascii c in
  (((9 <=? n) && (n <=? 13)) || ((28 <=? n) && (n <=? 32)))%nat.

Definition digit_of (c : ascii) : option Z :=
  let n := nat_of_ascii c in
  if ((48 <=? n) && (n <=? 57))%nat then Some (Z.of_nat n - 48) else None.

Fixpoint lstrip (l : list ascii) : list ascii :=
  match l with
  | [] => []
  | c :: t => if is_space c then lstrip t else l
  end.

Definition strip (l : list ascii) : list ascii := rev (lstrip (rev (lstrip l))).

(** Decimal digits, a single underscore allowed between two of them. *)
Fixpoint int_digits (acc : Z) (l : list ascii) : option Z :=
  match l with
  | [] => Some acc
  | c :: t =>
      if Ascii.eqb c "_"%char then
        match t with
        | d :: _ => match digit_of d with Some _ => int_digits acc t | None => None end
        | [] => None
        end
      else
        match digit_of c with
        | Some d => int_digits (10 * acc + d) t
        | None => None
        end
  end.

Definition int_unsigned (l : list ascii) : option Z :=
  match l with
  | c :: _ => match digit_of c with Some _ => int_digits 0 l | None => None end
  | [] => None
  end.

(** [int(s)] in base ten: surrounding white space is dropped, a sign may
    come first; anything else raises [ValueError]. *)
Definition py_int (s : string) : result Z :=
  let body := strip (list_ascii_of_string s) in
  let parsed :=
    match body with
    | c :: t =>
        if Ascii.eqb c "-"%char then option_map Z.opp (int_unsigned t)
        else if Ascii.eqb c "+"%char then int_unsigned t
        else int_unsigned body
    | [] => None
    end in
  match parsed with
  | Some z => Ok z
  | None => Raise ValueError
  end.

Fixpoint map_result {A B : Type} (f : A -> result B) (l : list A) : result (list B) :=
  match l with
  | [] => Ok []
  | a :: t => (b <-? f a ;; bs <-? map_result f t ;; Ok (b :: bs))%result
  end.

(** ** Regular expressions *)

(** The fragment of Python's [re] syntax the module uses. *)
Inductive regex : Type :=
| Eps
| Bol                              (* ^ *)
| Eol                              (* $ *)
| Chr (c : ascii)                  (* a literal character, such as \. *)
| Range (lo hi : ascii)            (* [lo-hi] *)
| Opt (r : regex)                  (* r? *)
| Rep (r : regex) (lo hi : nat)    (* r{lo,hi} *)
| Cat (r1 r2 : regex).

Definition in_range (lo hi c : ascii) : bool :=
  ((nat_of_ascii lo <=? nat_of_ascii c) && (nat_of_ascii c <=? nat_of_ascii hi))%nat.

(** A backtracking matcher in continuation style, greedy as Python's is.
    [bos] tells whether the position is the beginning of the string, [s] is
    the input left, and [k] matches what follows [r]. Without the MULTILINE
    flag, [^] holds at the beginning of the string only, and [$] holds at its
    end and also just before a newline that is its last character. *)
Fixpoint rmatch (r : regex) (bos : bool) (s : list ascii)
  (k : bool -> list ascii -> bool) {struct r} : bool :=
  match r with
  | Eps => k bos s
  | Bol => bos && k bos s
  | Eol =>
      match s with
      | [] => k bos s
      | [c] => Ascii.eqb c (ascii_of_nat 10) && k bos s
      | _ => false
      end
  | Chr c =>
      match s with
      | x :: t => Ascii.eqb x c && k false t
      | [] => false
      end
  | Range lo hi =>
      match s with
      | x :: t => in_range lo hi x && k false t
      | [] => false
      end
  | Opt r1 => rmatch r1 bos s k || k bos s
  | Rep r1 lo hi =>
      (fix rep (lo hi : nat) (bos : bool) (s : list ascii) {struct hi} : bool :=
         match hi with
         | O => match lo with O => k bos s | S _ => false end
         | S hi' =>
             rmatch r1 bos s (fun b t => rep (Nat.pred lo) hi' b t)
             || match lo with O => k bos s | S _ => false end
         end) lo hi bos s
  | Cat r1 r2 => rmatch r1 bos s (fun b t => rmatch r2 b t k)
  end.

(** [pattern.match(s)] is a match object (true) or [None] (false): the
    pattern must match at the first character, and may stop anywhere. *)
Definition re_match (r : regex) (s : string) : bool :=
  rmatch r true (list_ascii_of_string s) (fun _ _ => true).

Definition cat_all (rs : list regex) : regex := fold_right Cat Eps rs.

(** ** Validators *)

(** [[0-2]?[0-9]{1,2}] *)
Definition ipv4_chunk : list regex :=
  [ Opt (Range "0" "2"); Rep (Range "0" "9") 1 2 ].

(** [^[0-2]?[0-9]{1,2}\.[0-2]?[0-9]{1,2}\.[0-2]?[0-9]{1,2}\.[0-2]?[0-9]{1,2}$]
    (line 172) *)
Definition ipv4 : regex :=
  cat_all ([Bol] ++ ipv4_chunk ++ [Chr "."] ++ ipv4_chunk ++ [Chr "."]
           ++ ipv4_chunk ++ [Chr "."] ++ ipv4_chunk ++ [Eol]).

(** Lines 166-183. [Ok tt] is the normal return. *)
Definition checkipformat (ip : string) : result unit :=
  if re_match ipv4 ip then
    (values <-? map_result py_int (split_dot ip) ;;
     let valid_values := List.filter (fun v => v <? 256) values in
     if (length valid_values =? 4)%nat then Ok tt
     else Raise (IncorrectIpFormat "ipv4"))%result
  else Raise (IncorrectIpFormat "ipv4").

(** The loop of lines 192-194. *)
Fixpoint check_fields (fields : list string) : result unit :=
  match fields with
  | [] => Ok tt
  | field :: rest =>
      if in_FIELDS field then check_fields rest
      else Raise (FieldDoesNotExist field)
  end.

(** Lines 186-197. *)
Definition formatfields (fields : list string) : result string :=
  (_ <-? check_fields fields ;;
   Ok (join "," (map lower fields)))%result.

(** ** The world outside the interpreter *)

(** What a call did to its surroundings; a [trace] lists them, the most
    recent first. *)
Inductive event : Type :=
| EvExists (path : string)             (* Path.exists() *)
| EvRead (path : string)               (* open(path, 'r') *)
| EvWrite (path : string)              (* open(path, 'w') *)
| EvShelveOpen (path flag : string)    (* shelve.open(path, flag) *)
| EvShelveGet (path key : string)      (* db.get(key) *)
| EvShelveSet (path key : string)      (* db[key] = value *)
| EvShelveDel (path key : string)      (* del db[key] *)
| EvHttpGet (url : string).            (* requests.get(url) *)

(** An answer of the provider: [r.status_code] and the outcome of
    [r.json()]. *)
Record HttpResponse : Type := {
  status_code : Z;
  json : result pyval
}.

Record World : Type := {
  module_dir : string;                          (* Path(__file__).parent *)
  files : gmap string string;                   (* text files, by path *)
  shelves : gmap string (gmap string pyval);    (* shelve stores, by file name *)
  remote : string -> result HttpResponse;       (* the answer to a GET of a URL *)
  trace : list event
}.

Definition Eff (A : Type) : Type := World -> result A * World.

Definition ret {A : Type} (a : A) : Eff A := fun w => (Ok a, w).
Definition raise {A : Type} (e : pyexn) : Eff A := fun w => (Raise e, w).
Definition lift {A : Type} (c : result A) : Eff A := fun w => (c, w).
Definition bind {A B : Type} (c : Eff A) (k : A -> Eff B) : Eff B :=
  fun w =>
    match c w with
    | (Ok a, w') => k a w'
    | (Raise e, w') => (Raise e, w')
    end.

Declare Scope eff_scope.
Delimit Scope eff_scope with eff.
Notation "x <- c ;; k" := (bind c (fun x => k))
  (at level 100, c at next level, right associativity) : eff_scope.

Definition log (e : event) : Eff unit :=
  fun w => (Ok tt, {| module_dir := module_dir w; files := files w;
                      shelves := shelves w; remote := remote w;
                      trace := e :: trace w |}).

(** [Path(__file__).parent] *)
Definition here : Eff string := fun w => (Ok (module_dir w), w).

(** [str(folder.joinpath(name))] *)
Definition joinpath (folder name : string) : string := folder +:+ "/" +:+ name.

(** [path.exists()] *)
Definition path_exists (path : string) : Eff bool :=
  (_ <- log (EvExists path) ;;
   fun w => (Ok (match files w !! path with Some _ => true | None => false end), w))%eff.

(** [with open(path, 'r') as f: f.read()] *)
Definition read_text (path : string) : Eff string :=
  (_ <- log (EvRead path) ;;
   fun w => match files w !! path with
            | Some text => (Ok text, w)
            | None => (Raise OSError, w)
            end)%eff.

(** [with open(path, 'w') as f: f.write(text)] *)
Definition write_text (path text : string) : Eff unit :=
  (_ <- log (EvWrite path) ;;
   fun w => (Ok tt, {| module_dir := module_dir w;
                       files := <[path := text]> (files w);
                       shelves := shelves w; remote := remote w;
                       trace := trace w |}))%eff.

Definition set_shelves (s : gmap string (gmap string pyval)) (w : World) : World :=
  {| module_dir := module_dir w; files := files w; shelves := s;
     remote := remote w; trace := trace w |}.

(** [shelve.open(path, flag)], with the flags of [dbm.open]: ['r'] and ['w']
    open a store that exists and raise [dbm.error] when there is none, ['c']
    creates the store when there is none, ['n'] starts an empty one. The
    handle returned is the name of the store. *)
Definition shelve_open (path flag : string) : Eff string :=
  (_ <- log (EvShelveOpen path flag) ;;
   fun w =>
     if String.eqb flag "n" then (Ok path, set_shelves (<[path := ∅]> (shelves w)) w)
     else match shelves w !! path with
          | Some _ => (Ok path, w)
          | None =>
              if String.eqb flag "c"
              then (Ok path, set_shelves (<[path := ∅]> (shelves w)) w)
              else (Raise DbmError, w)
          end)%eff.

Definition store_of (db : string) (w : World) : gmap string pyval :=
  default ∅ (shelves w !! db).

(** [db.get(key)]: the value stored, [None] when there is none. *)
Definition shelve_get (db key : string) : Eff pyval :=
  (_ <- log (EvShelveGet db key) ;;
   fun w => (Ok (default PNone (store_of db w !! key)), w))%eff.

(** [db[key] = value]. A shelf encodes its key with [key.encode], which only
    a string has. *)
Definition shelve_setitem (db : string) (key value : pyval) : Eff unit :=
  match key with
  | PStr k =>
      (_ <- log (EvShelveSet db k) ;;
       fun w => (Ok tt, set_shelves (<[db := <[k := value]> (store_of db w)]> (shelves w)) w))%eff
  | _ => raise AttributeError
  end.

(** [del db[key]]: raises [KeyError] when the key is not in the store. *)
Definition shelve_delitem (db : string) (key : pyval) : Eff unit :=
  match key with
  | PStr k =>
      (_ <- log (EvShelveDel db k) ;;
       fun w => match store_of db w !! k with
                | Some _ =>
                    (Ok tt, set_shelves (<[db := delete k (store_of db w)]> (shelves w)) w)
                | None => (Raise (KeyError k), w)
                end)%eff
  | _ => raise AttributeError
  end.

(** [requests.get(url)] *)
Definition requests_get (url : string) : Eff HttpResponse :=
  (_ <- log (EvHttpGet url) ;;
   fun w => (remote w url, w))%eff.

(** ** The response model (lines 77-133) *)

(** An instance is its [__dict__]: the attributes set on it, in the order
    they were first set. *)
Record Response : Type := { __dict__ : list (string * pyval) }.

(** [self.__setattr__(name, value)] *)
Definition setattr (self : Response) (name : string) (value : pyval) : Response :=
  {| __dict__ := dict_set (__dict__ self) name value |}.

(** [self.__getattribute__(name)], for a data attribute. *)
Definition getattribute (self : Response) (name : string) : result pyval :=
  match dict_get (__dict__ self) name with
  | Some v => Ok v
  | None => Raise AttributeError
  end.

(** [field in attributes]: a key of a dict, a substring of a string, an
    element of a list; the other objects are no containers. *)
Definition contains (attributes : pyval) (field : string) : result bool :=
  match attributes with
  | PDict d => Ok (match dict_get d field with Some _ => true | None => false end)
  | PStr s => Ok (str_contains field s)
  | PList l =>
      Ok (existsb (fun x => match x with PStr s => String.eqb s field | _ => false end) l)
  | _ => Raise TypeError
  end.

(** [attributes[field]] with a string [field]: the value of the key of a
    dict; a string or a list takes integer indices only. *)
Definition getitem (attributes : pyval) (field : string) : result pyval :=
  match attributes with
  | PDict d =>
      match dict_get d field with
      | Some v => Ok v
      | None => Raise (KeyError field)
      end
  | _ => Raise TypeError
  end.

(** The loop of lines 86-91 over the fields left. *)
Fixpoint init_fields (fields : list string) (attributes : pyval) (self : Response)
  : result Response :=
  match fields with
  | [] => Ok self
  | field :: rest =>
      (present <-? contains attributes field ;;
       if (present : bool) then
         value <-? getitem attributes field ;;
         init_fields rest attributes (setattr self field value)
       else
         init_fields rest attributes (setattr self field (PStr EmptyString)))%result
  end.

(** [Response(attributes)] (lines 79-93) *)
Definition Response__init__ (attributes : pyval) : Eff Response :=
  (self <- lift (init_fields _FIELDS attributes {| __dict__ := [] |}) ;;
   currentfolder <- here ;;
   ret (setattr self "currentfolder" (PPath currentfolder)))%eff.

(** [str(self.currentfolder.joinpath(_CACHE_FILE))]: only a path has
    [joinpath]. *)
Definition cache_path (self : Response) : result string :=
  (currentfolder <-? getattribute self "currentfolder" ;;
   match currentfolder with
   | PPath p => Ok (joinpath p _CACHE_FILE)
   | _ => Raise AttributeError
   end)%result.

(** Lines 95-102. *)
Definition cache (self : Response) : Eff unit :=
  (ip <- lift (getattribute self "ip") ;;
   path <- lift (cache_path self) ;;
   db <- shelve_open path "w" ;;
   shelve_setitem db ip (PDict (__dict__ self)))%eff.

(** Lines 104-113. *)
Definition uncache (self : Response) : Eff unit :=
  (ip <- lift (getattribute self "ip") ;;
   path <- lift (cache_path self) ;;
   db <- shelve_open path "w" ;;
   value <- shelve_get db "ip" ;;
   if truthy value then shelve_delitem db ip else ret tt)%eff.

(** Lines 115-130. [None] of the source is [None] here. *)
Definition retreivefromcache (ip : string) : Eff (option Response) :=
  (currentfolder <- here ;;
   db <- shelve_open (joinpath currentfolder _CACHE_FILE) "c" ;;
   value <- shelve_get db ip ;;
   if truthy value then
     self <- Response__init__ (PStr ip) ;;
     ret (Some self)
   else ret None)%eff.

(** ** The credential store (lines 136-159) *)


Definition getkey : Eff string :=
  (currentfolder <- here ;;
   let keyfile := joinpath currentfolder __KEY_FILE in
   found <- path_exists keyfile ;;
   if (found : bool) then read_text keyfile else raise KeyNotFound)%eff.

Definition listfields : list string := _FIELDS.

(** ** The request (lines 200-268) *)

Definition text_401 : string :=
  String.concat EmptyString
    [ "It is returned for one of the following reasons:"; nl;
      tab; "(1) If API key (as "; dquote; "apiKey"; dquote;
      " URL parameter) is missing from the request to";
      "IP Geolocation API."; nl; tab;
      "(2) If an invalid (a random value) API key is provided."; nl; tab;
      "(3) If the API request is made from an unverified ipgeolocation.io";
      " account."; nl; tab;
      "(4) If your account has been disabled or locked to use by the admin due to";
      " abuse or illegal activity."; nl; tab;
      "(5) When the request to IP Geolocation API is";
      "made using API key for a database subscription."; nl; tab;
      "(6) When the request to IP";
      " Geolocation API is made on the "; dquote; "paused"; dquote;
      " subscription."; nl; tab; "(7) If you’re making";
      " API requests after your subscription trial has been expired."; nl; tab;
      "(8) If your ";
      "active until date has passed and you need to upgrade your account."; nl; tab;
      "(9) If";
      " bulk IP to geolocation look-ups endpoint is called using free subscription";
      " API key."; nl; tab;
      "(10) If user-agent lookup using custom string or bulk user-agent";
      " look-ups endpoints are called using free subscription API key."; nl; tab;
      "(11) When the wrong input is provided in the request to any endpoint of IP";
      " Geolocation API." ].

Definition text_403 : string :=
  String.concat EmptyString
    [ "It is returned for one of the following reasons:"; nl; tab;
      "(1) If IP to geolocation";
      " look-up for a domain name is done using a free subscription API key." ].

Definition text_404 : string :=
  String.concat EmptyString
    [ "It is returned for one of the following reasons:"; nl; tab;
      "(1) If the queried IP";
      " address or domain name is not found in our database." ].

Definition text_423 : string :=
  String.concat EmptyString
    [ "If the queried IP address is a [bogon]() (bogus IP address from the bogon";
      " space) IP address." ].

Definition text_429 : string :=
  String.concat EmptyString
    [ "It is returned for one of the following reasons:"; nl; tab;
      "(1) If the API usage ";
      "limit has reached for the free subscriptions, or paid subscriptions with";
      " the status "; dquote; "past due"; dquote; ", "; dquote; "deleted"; dquote;
      " or "; dquote; "trial expired"; dquote; "."; nl; tab;
      "(2) If the surcharge";
      " API usage limit has reached against the subscribed plan." ].

(** [if ip:] for an argument that is a string or [None]. *)
Definition given_str (ip : option string) : bool :=
  match ip with
  | Some s => truthy (PStr s)
  | None => false
  end.

(** [if fields:] for an argument that is a list, a tuple or [None]. *)
Definition given_list (fields : option (list string)) : bool :=
  match fields with
  | Some (_ :: _) => true
  | _ => false
  end.

(** Lines 229-268: what [get] makes of the answer [r]. *)
Definition respond (r : HttpResponse) : Eff Response :=
  if status_code r =? 200 then
    (body <- lift (json r) ;; Response__init__ body)%eff
  else if status_code r =? 401 then
    raise (RequestError (PInt (status_code r)) text_401)
  else if status_code r =? 403 then
    raise (RequestError (PInt (status_code r)) text_403)
  else if status_code r =? 404 then
    raise (RequestError (PInt (status_code r)) text_404)
  else if status_code r =? 423 then
    raise (RequestError (PInt (status_code r)) text_423)
  else if status_code r =? 429 then
    raise (RequestError (PInt (status_code r)) text_429)
  else raise (RequestError (PStr "Unknown") "Unknown").

(** Lines 216-228: the query is completed and sent. *)
Definition fetch (query_str : string) (ip : option string)
  (fields excluded_fields : option (list string)) : Eff Response :=
  (query_str <-
     (if given_str ip then
        _ <- lift (checkipformat (default EmptyString ip)) ;;
        ret (query_str +:+ "&ip=" +:+ default EmptyString ip)
      else ret query_str) ;;
   query_str <-
     (if given_list fields then
        include <- lift (formatfields (default [] fields)) ;;
        ret (query_str +:+ "&fields=" +:+ include)
      else ret query_str) ;;
   query_str <-
     (if given_list excluded_fields then
        exclude <- lift (formatfields (default [] excluded_fields)) ;;
        ret (query_str +:+ "&excludes=" +:+ exclude)
      else ret query_str) ;;
   r <- requests_get (__URL +:+ query_str) ;;
   respond r)%eff.

(** [get(ip, fields, excluded_fields, cache_search)] *)
Definition get (ip : option string) (fields excluded_fields : option (list string))
  (cache_search : bool) : Eff Response :=
  (key <- getkey ;;
   let query_str := __API_PARAM +:+ "=" +:+ key in
   if cache_search && given_str ip then
     value <- retreivefromcache (default EmptyString ip) ;;
     match value with
     | Some value => ret value
     | None => fetch query_str ip fields excluded_fields
     end
   else fetch query_str ip fields excluded_fields)%eff.

(** ** Observations on worlds *)

(** Events that change an entry of a store. *)
Definition is_store_write (e : event) : bool :=
  match e with
  | EvShelveSet _ _ | EvShelveDel _ _ => true
  | _ => false
  end.

Definition is_http (e : event) : bool :=
  match e with
  | EvHttpGet _ => true
  | _ => false
  end.

(** [w] after the events [evs] (the most recent first) that change nothing
    but the trace. *)
Definition logged (evs : list event) (w : World) : World :=
  {| module_dir := module_dir w; files := files w; shelves := shelves w;
     remote := remote w; trace := evs ++ trace w |}.

(** [w'] is [w] after reading only: every store has the entries it had, the
    files are the same, and no event since [w] writes or deletes an entry. *)
Definition read_only_step (w w' : World) : Prop :=
  (forall db, store_of db w' = store_of db w)
  /\ files w' = files w
  /\ exists evs, trace w' = evs ++ trace w
                 /\ forallb (fun e => negb (is_store_write e)) evs = true.

Definition reads_only {A : Type} (c : Eff A) : Prop :=
  forall w, read_only_step w (snd (c w)).

(** ** The dotted quad, in the words of the specification

    Four segments separated by dots, each of one to three digits, a segment
    of three digits beginning with 0, 1 or 2, and the number each segment
    writes below 256. This definition follows the specification, not the
    source: [checkipformat] is compared with it. *)

Definition is_digit (c : ascii) : bool := in_range "0" "9" c.

(** The number a string of digits writes in base ten. *)
Definition decimal (l : list ascii) : Z :=
  fold_left (fun acc c => 10 * acc + (Z.of_nat (nat_of_ascii c) - 48)) l 0.

Definition spec_segment (s : string) : bool :=
  let l := list_ascii_of_string s in
  match l with
  | [a] => is_digit a
  | [a; b] => is_digit a && is_digit b
  | [a; b; c] => in_range "0" "2" a && is_digit b && is_digit c
  | _ => false
  end
  && (decimal l <? 256).

Definition spec_dotted_quad (ip : string) : bool :=
  match split_dot ip with
  | [a; b; c; d] => spec_segment a && spec_segment b && spec_segment c && spec_segment d
  | _ => false
  end.

(** ** Auxiliary notions for the address check *)

(** The lists a chunk [[0-2]?[0-9]{1,2}] of the pattern matches. *)
Definition chunkb (l : list ascii) : bool :=
  match l with
  | [a] => is_digit a
  | [a; b] => is_digit a && is_digit b
  | [a; b; c] => in_range "0" "2" a && is_digit b && is_digit c
  | _ => false
  end.

(** No dot in the list. *)
Definition nodot (l : list ascii) : bool :=
  forallb (fun c => negb (Ascii.eqb c "."%char)) l.

(** The pieces of a string with dots between them. *)
Fixpoint dotted (pieces : list string) : list ascii :=
  match pieces with
  | [] => []
  | [p] => list_ascii_of_string p
  | p :: rest => list_ascii_of_string p ++ "."%char :: dotted rest
  end.

(** The characters of the strings [checkipformat] accepts: digits, the dot
    and the newline. *)
Definition ipchar (c : ascii) : bool :=
  is_digit c || Ascii.eqb c "."%char || Ascii.eqb c (ascii_of_nat 10).

(** The first character of a string is none of them. *)
Definition starts_outside_ip (f : string) : bool :=
  match f with
  | String c _ => negb (ipchar c)
  | EmptyString => false
  end.

(** ** Concrete worlds and records

    Explicit inputs on which the program is evaluated. *)

(** A provider that answers every request with [status] and [body]. *)
Definition answering (status : Z) (body : pyval) : string -> result HttpResponse :=
  fun _ => Ok {| status_code := status; json := Ok body |}.

(** The module installed in [/opt/geoapy]; no key registered, no store. *)
Definition fresh_world : World :=
  {| module_dir := "/opt/geoapy"; files := ∅; shelves := ∅;
     remote := answering 500 PNone; trace := [] |}.

(** The same installation with a key registered and an empty store. *)
Definition keyed_world : World :=
  {| module_dir := "/opt/geoapy";
     files := {[ "/opt/geoapy/key.txt" := "SECRET" ]};
     shelves := {[ "/opt/geoapy/cache" := ∅ ]};
     remote := answering 500 PNone; trace := [] |}.

(** A key registered, no store, and a provider that answers every request
    with the status 500. *)
Definition failing_world : World :=
  {| module_dir := "/opt/geoapy";
     files := {[ "/opt/geoapy/key.txt" := "SECRET" ]};
     shelves := ∅;
     remote := answering 500 PNone; trace := [] |}.

(** The same with a provider out of quota. *)
Definition throttled_world : World :=
  {| module_dir := "/opt/geoapy";
     files := {[ "/opt/geoapy/key.txt" := "SECRET" ]};
     shelves := ∅;
     remote := answering 429 PNone; trace := [] |}.

(** The record [Response(attributes)] built in [w], for arguments the
    constructor accepts. *)
Definition built (attributes : pyval) (w : World) : Response :=
  match fst (Response__init__ attributes w) with
  | Ok self => self
  | Raise _ => {| __dict__ := [] |}
  end.

(** The payload [{'ip': '1.2.3.4', 'city': 'Girona'}] and its record. *)
Definition girona_payload : list (string * pyval) :=
  [ ("ip", PStr "1.2.3.4"); ("city", PStr "Girona") ].

Definition girona : Response := built (PDict girona_payload) keyed_world.

(** The world after [girona.cache()]. *)
Definition girona_cached : World := snd (cache girona keyed_world).

(** A store whose only entry is under the key ['ip']: what caching a record
    built from [{'ip': 'ip'}] leaves. *)
Definition stray_world : World :=
  snd (cache (built (PDict [("ip", PStr "ip")]) keyed_world) keyed_world).

(** ** Notions for the further properties *)

(** [s.split(sep)] for a separator of one character. *)
Fixpoint split_at (sep : ascii) (s : string) : list string :=
  match s with
  | EmptyString => [EmptyString]
  | String c t =>
      if Ascii.eqb c sep then EmptyString :: split_at sep t
      else match split_at sep t with
           | [] => [String c EmptyString]
           | h :: r => String c h :: r
           end
  end.

(** [sep] does not occur in [s]. *)
Fixpoint free_of (sep : ascii) (s : string) : bool :=
  match s with
  | EmptyString => true
  | String c t => negb (Ascii.eqb c sep) && free_of sep t
  end.


(** The address [get] puts in the query: none for [None] and for the empty
    string. *)
Definition sent_ip (ip : option string) : option string :=
  match ip with
  | Some s => if String.eqb s EmptyString then None else Some s
  | None => None
  end.



(** The world after caching the record of [{'ip': 'city.example'}]. *)
Definition hosted_world : World :=
  snd (cache (built (PDict [("ip", PStr "city.example")]) keyed_world) keyed_world).

(** An object that is no dict. *)
Definition is_dict (v : pyval) : bool :=
  match v with
  | PDict _ => true
  | _ => false
  end.

(** The [in] test of the constructor raises or succeeds for some field. *)
Definition trips (v : pyval) (f : string) : bool :=
  match contains v f with
  | Ok false => false
  | _ => true
  end.

(** [c] sends at most [n] requests, from any world. *)
Definition sends_at_most (n : nat) {A : Type} (c : Eff A) : Prop :=
  forall w, exists evs,
    trace (snd (c w)) = evs ++ trace w
    /\ (length (List.filter is_http evs) <= n)%nat.

(** * Properties *)

(** ** Dictionaries and attributes *)

Lemma dict_get_set_eq d k v : dict_get (dict_set d k v) k = Some v.
Proof.
  induction d as [|[k' v'] t IH]; simpl.
  - now rewrite String.eqb_refl.
  - destruct (String.eqb_spec k' k) as [->|Hne]; simpl.
    + now rewrite String.eqb_refl.
    + destruct (String.eqb_spec k' k); [contradiction | exact IH].
Qed.

Lemma dict_get_set_ne d k k' v :
  k <> k' -> dict_get (dict_set d k v) k' = dict_get d k'.
Proof.
  intros Hne. induction d as [|[k0 v0] t IH]; simpl.
  - destruct (String.eqb_spec k k'); [contradiction | reflexivity].
  - destruct (String.eqb_spec k0 k) as [->|Hk]; simpl.
    + destruct (String.eqb_spec k k'); [contradiction | reflexivity].
    + destruct (String.eqb_spec k0 k'); [reflexivity | exact IH].
Qed.

Lemma dict_get_None d k : dict_get d k = None <-> ~ In k (dict_keys d).
Proof.
  induction d as [|[k' v'] t IH]; simpl.
  - tauto.
  - destruct (String.eqb_spec k' k) as [->|Hne].
    + split; [discriminate | intros H; exfalso; apply H; now left].
    + rewrite IH. split.
      * intros H [Heq|Hin]; [contradiction | now apply H].
      * intros H Hin. apply H. now right.
Qed.

Lemma dict_keys_set_new d k v :
  dict_get d k = None -> dict_keys (dict_set d k v) = dict_keys d ++ [k].
Proof.
  induction d as [|[k' v'] t IH]; simpl; [reflexivity|].
  destruct (String.eqb_spec k' k) as [->|Hne]; [discriminate|].
  intros H. simpl. now rewrite (IH H).
Qed.

Lemma in_FIELDS_In x : in_FIELDS x = true <-> In x _FIELDS.
Proof.
  unfold in_FIELDS. rewrite existsb_exists. split.
  - intros [y [Hin Heq]]. apply String.eqb_eq in Heq. now subst.
  - intros Hin. exists x. split; [exact Hin | apply String.eqb_refl].
Qed.

Lemma FIELDS_NoDup : NoDup _FIELDS.
Proof.
  apply (bool_decide_unpack _). vm_compute. reflexivity.
Qed.

(** ** The constructor *)

(** Whatever [attributes] is, a constructor that returns has set the fields
    of the catalog, in the order of the catalog, after the attributes the
    instance had. *)
Lemma init_fields_keys fields : forall attributes self self',
  NoDup fields ->
  (forall f, In f fields -> dict_get (__dict__ self) f = None) ->
  init_fields fields attributes self = Ok self' ->
  dict_keys (__dict__ self') = dict_keys (__dict__ self) ++ fields.
Proof.
  induction fields as [|f rest IH]; intros attributes self self' Hnd Hfresh Hrun.
  - simpl in Hrun. injection Hrun as <-. now rewrite app_nil_r.
  - inversion Hnd as [|? ? Hnotin Hnd']; subst.
    assert (Hstep : forall v,
      init_fields rest attributes (setattr self f v) = Ok self' ->
      dict_keys (__dict__ self') = dict_keys (__dict__ self) ++ f :: rest).
    { intros v Hv. apply IH in Hv; [|exact Hnd'|].
      - rewrite Hv. simpl. rewrite dict_keys_set_new by (apply Hfresh; now left).
        now rewrite <- app_assoc.
      - intros g Hg. simpl. rewrite dict_get_set_ne.
        + apply Hfresh. now right.
        + intros ->. now apply Hnotin, list_elem_of_In. }
    simpl in Hrun.
    destruct (contains attributes f) as [[|]|e]; simpl in Hrun; [|eauto|discriminate].
    destruct (getitem attributes f) as [v|e]; simpl in Hrun; [eauto|discriminate].
Qed.

(** On a dict the constructor cannot raise, and each field gets the value of
    its key, or the empty string. *)
Lemma init_fields_dict fields : forall payload self, exists self',
  init_fields fields (PDict payload) self = Ok self'
  /\ forall f, dict_get (__dict__ self') f =
       if existsb (String.eqb f) fields
       then Some (default (PStr "") (dict_get payload f))
       else dict_get (__dict__ self) f.
Proof.
  induction fields as [|f0 rest IH]; intros payload self.
  - exists self. split; reflexivity.
  - set (v := default (PStr "") (dict_get payload f0)).
    destruct (IH payload (setattr self f0 v)) as [self' [Hrun Hget]].
    exists self'. split.
    + simpl. subst v. destruct (dict_get payload f0); simpl; exact Hrun.
    + intros f. rewrite Hget. simpl.
      destruct (existsb (String.eqb f) rest); [now rewrite orb_true_r|].
      rewrite orb_false_r. destruct (String.eqb_spec f f0) as [->|Hne].
      * apply dict_get_set_eq.
      * apply dict_get_set_ne. congruence.
Qed.

(** C2, as amended: for every payload mapping, the constructor returns a
    record on which every name of the field catalog is an attribute, holding
    the payload's value when the name is a key of the payload and the empty
    string otherwise; the attributes of the record are the names of the
    catalog followed by [currentfolder], which holds the directory of the
    module, so that no key of the payload outside the catalog is
    materialized. *)
Theorem Response_init_payload (payload : list (string * pyval)) (w : World) :
  exists self,
    Response__init__ (PDict payload) w = (Ok self, w)
    /\ (forall f, In f _FIELDS ->
          getattribute self f = Ok (default (PStr "") (dict_get payload f)))
    /\ dict_keys (__dict__ self) = _FIELDS ++ ["currentfolder"]
    /\ getattribute self "currentfolder" = Ok (PPath (module_dir w)).
Proof.
  destruct (init_fields_dict _FIELDS payload {| __dict__ := [] |}) as [self0 [Hrun Hget]].
  assert (Hkeys : dict_keys (__dict__ self0) = _FIELDS).
  { apply init_fields_keys in Hrun; [exact Hrun | apply FIELDS_NoDup | reflexivity]. }
  exists (setattr self0 "currentfolder" (PPath (module_dir w))).
  split; [|split; [|split]].
  - unfold Response__init__, bind, lift, here, ret. now rewrite Hrun.
  - intros f Hf. unfold getattribute. simpl.
    rewrite dict_get_set_ne.
    + rewrite Hget. apply in_FIELDS_In in Hf. unfold in_FIELDS in Hf. now rewrite Hf.
    + intros <-. revert Hf. apply (bool_decide_unpack _). vm_compute. reflexivity.
  - simpl. rewrite dict_keys_set_new; [now rewrite Hkeys|].
    apply dict_get_None. rewrite Hkeys.
    apply (bool_decide_unpack _). vm_compute. reflexivity.
  - unfold getattribute. simpl. now rewrite dict_get_set_eq.
Qed.

(** C2, as stated, fails: the record built from the empty payload has the
    attribute [currentfolder], which is no name of the field catalog. *)
Lemma Response_init_extra_attribute :
  exists self,
    Response__init__ (PDict []) fresh_world = (Ok self, fresh_world)
    /\ In "currentfolder" (dict_keys (__dict__ self))
    /\ ~ In "currentfolder" _FIELDS.
Proof.
  eexists. split; [reflexivity|]. rewrite <- !list_elem_of_In. split.
  - apply (bool_decide_unpack _). vm_compute. reflexivity.
  - apply (bool_decide_unpack _). vm_compute. reflexivity.
Qed.

(** ** The field list of a request *)

Lemma check_fields_spec (fields : list string) :
  (exists known f rest,
      fields = known ++ f :: rest
      /\ Forall (fun x => In x _FIELDS) known
      /\ ~ In f _FIELDS
      /\ check_fields fields = Raise (FieldDoesNotExist f))
  \/ (Forall (fun x => In x _FIELDS) fields /\ check_fields fields = Ok tt).
Proof.
  induction fields as [|x rest IH]; simpl.
  - right. split; [constructor | reflexivity].
  - destruct (in_FIELDS x) eqn:Hx.
    + apply in_FIELDS_In in Hx.
      destruct IH as [(known & f & rest' & -> & Hknown & Hf & Hrun) | [Hall Hrun]].
      * left. exists (x :: known), f, rest'. repeat split; auto.
      * right. split; [now constructor | exact Hrun].
    + left. exists [], x, rest. repeat split; [constructor|].
      intros Hin. apply in_FIELDS_In in Hin. congruence.
Qed.

(** Every name of the catalog is in lower case already. *)
Lemma lower_FIELDS (f : string) : In f _FIELDS -> lower f = f.
Proof.
  unfold _FIELDS. simpl.
  intros H. repeat (destruct H as [<- | H]; [reflexivity|]). contradiction.
Qed.

(** C3, as amended: for every sequence of strings, [formatfields] raises
    [FieldDoesNotExist f] for the first element [f] that is not in the field
    catalog, and otherwise returns the elements in lower case, joined with
    commas in the order given. The membership test compares the elements as
    they are written: [formatfields(["city", "asn"])] returns ["city,asn"],
    [formatfields(["City", "ASN"])] raises [FieldDoesNotExist("City")] and
    [formatfields(["bogus"])] raises [FieldDoesNotExist("bogus")]. *)
Theorem formatfields_spec :
  (forall fields : list string,
      (exists known f rest,
          fields = known ++ f :: rest
          /\ Forall (fun x => In x _FIELDS) known
          /\ ~ In f _FIELDS
          /\ formatfields fields = Raise (FieldDoesNotExist f))
      \/ (Forall (fun x => In x _FIELDS) fields
          /\ formatfields fields = Ok (join "," (map lower fields))))
  /\ formatfields ["city"; "asn"] = Ok "city,asn"
  /\ formatfields ["City"; "ASN"] = Raise (FieldDoesNotExist "City")
  /\ formatfields ["bogus"] = Raise (FieldDoesNotExist "bogus").
Proof.
  split; [|repeat split; reflexivity].
  intros fields. unfold formatfields.
  destruct (check_fields_spec fields)
    as [(known & f & rest & Heq & Hknown & Hf & Hrun) | [Hall Hrun]]; rewrite Hrun.
  - left. exists known, f, rest. auto.
  - right. auto.
Qed.

(** C3, as stated, fails on its own example: ["City"] is not in the catalog,
    so [formatfields(["City", "ASN"])] raises and returns no string. *)
Lemma formatfields_capitalised :
  formatfields ["City"; "ASN"] = Raise (FieldDoesNotExist "City")
  /\ formatfields ["City"; "ASN"] <> Ok "city,asn".
Proof. split; [reflexivity | discriminate]. Qed.

(** When it returns, [formatfields] joins the names unchanged. *)
Lemma formatfields_unchanged (fields : list string) (s : string) :
  formatfields fields = Ok s -> s = join "," fields.
Proof.
  unfold formatfields.
  destruct (check_fields_spec fields) as [(known & f & rest & _ & _ & _ & Hrun) | [Hall Hrun]];
    rewrite Hrun; simpl; [discriminate|].
  intros [= <-]. f_equal. clear Hrun.
  induction Hall as [|x l Hx _ IH]; simpl; [reflexivity|].
  now rewrite IH, (lower_FIELDS x Hx).
Qed.

(** ** The credential *)

Ltac run_eff :=
  cbv beta iota zeta delta
    [bind ret raise lift log here set_shelves store_of rbind
     path_exists read_text write_text requests_get
     shelve_open shelve_get shelve_setitem shelve_delitem
     String.eqb Ascii.eqb Bool.eqb default from_option id];
  cbn [module_dir files shelves remote trace fst snd].

Ltac run_using rw := run_eff; repeat (progress (rw; run_eff)).

(** C6: for every invocation of [get], whatever its arguments, when there is
    no key file [get] raises [KeyNotFound]; all it did before was to ask
    whether the key file exists, so no request was sent and no store was
    opened, and the files and the stores are as they were. *)
Theorem get_without_key (ip : option string) (fields excluded_fields : option (list string))
  (cache_search : bool) (w : World) :
  files w !! joinpath (module_dir w) __KEY_FILE = None ->
  exists w',
    get ip fields excluded_fields cache_search w = (Raise KeyNotFound, w')
    /\ trace w' = EvExists (joinpath (module_dir w) __KEY_FILE) :: trace w
    /\ shelves w' = shelves w
    /\ files w' = files w.
Proof.
  intros Hnone. eexists. split.
  - unfold get, getkey. run_eff. rewrite Hnone. reflexivity.
  - cbn. auto.
Qed.

Lemma get_without_key_witness :
  files fresh_world !! joinpath (module_dir fresh_world) __KEY_FILE = None
  /\ exists w',
      get (Some "1.2.3.4") None None true fresh_world = (Raise KeyNotFound, w')
      /\ trace w' = EvExists (joinpath (module_dir fresh_world) __KEY_FILE) :: trace fresh_world
      /\ shelves w' = shelves fresh_world
      /\ files w' = files fresh_world.
Proof.
  split; [reflexivity|].
  apply (get_without_key (Some "1.2.3.4") None None true fresh_world). reflexivity.
Defined.

(** ** The cache *)

(** What the constructor leaves behind, whatever it was given: the world is
    as it was, the attributes are the catalog and [currentfolder], and the
    store of the record is the one of the module. *)
Lemma Response_init_built (attributes : pyval) (w w' : World) (self : Response) :
  Response__init__ attributes w = (Ok self, w') ->
  w' = w
  /\ dict_keys (__dict__ self) = _FIELDS ++ ["currentfolder"]
  /\ (exists v, getattribute self "ip" = Ok v)
  /\ cache_path self = Ok (joinpath (module_dir w) _CACHE_FILE).
Proof.
  unfold Response__init__. run_eff.
  destruct (init_fields _FIELDS attributes {| __dict__ := [] |}) as [self0|e] eqn:Hrun;
    [|discriminate].
  intros [= <- <-].
  apply init_fields_keys in Hrun; [|apply FIELDS_NoDup|reflexivity]. simpl in Hrun.
  assert (Hfresh : dict_get (__dict__ self0) "currentfolder" = None).
  { apply dict_get_None. rewrite Hrun, <- list_elem_of_In.
    apply (bool_decide_unpack _). vm_compute. reflexivity. }
  split; [reflexivity|]. split; [|split].
  - simpl. now rewrite dict_keys_set_new, Hrun.
  - unfold getattribute. simpl. rewrite dict_get_set_ne by discriminate.
    destruct (dict_get (__dict__ self0) "ip") as [v|] eqn:Hip; [now exists v|].
    apply dict_get_None in Hip. exfalso. apply Hip. rewrite Hrun, <- list_elem_of_In.
    apply (bool_decide_unpack _). vm_compute. reflexivity.
  - unfold cache_path, getattribute. simpl. now rewrite dict_get_set_eq.
Qed.

(** A record as the constructor builds it is a non-empty dict once pickled:
    every entry [cache] writes is true for [if value:]. *)
Lemma Response_init_truthy (attributes : pyval) (w w' : World) (self : Response) :
  Response__init__ attributes w = (Ok self, w') ->
  truthy (PDict (__dict__ self)) = true.
Proof.
  intros H. apply Response_init_built in H as (_ & Hkeys & _).
  simpl. destruct (__dict__ self); [discriminate | reflexivity].
Qed.

(** C9: for every record the constructor built, when the module has no
    store, [cache] and [uncache] fail in [shelve.open] with [dbm.error] and
    create no store; [retreivefromcache], which opens with the flag ['c'],
    creates the store, empty, and reports a miss. *)
Theorem cache_needs_store (attributes : pyval) (w : World) (self : Response) :
  Response__init__ attributes w = (Ok self, w) ->
  shelves w !! joinpath (module_dir w) _CACHE_FILE = None ->
  (exists w1, cache self w = (Raise DbmError, w1) /\ shelves w1 = shelves w)
  /\ (exists w2, uncache self w = (Raise DbmError, w2) /\ shelves w2 = shelves w)
  /\ (forall ip, exists w3,
         retreivefromcache ip w = (Ok None, w3)
         /\ shelves w3 = <[joinpath (module_dir w) _CACHE_FILE := ∅]> (shelves w)).
Proof.
  intros Hbuilt Hnone.
  apply Response_init_built in Hbuilt as (_ & _ & [v Hip] & Hpath).
  split; [|split].
  - eexists. split.
    + unfold cache. rewrite Hip, Hpath. run_eff. rewrite Hnone. reflexivity.
    + reflexivity.
  - eexists. split.
    + unfold uncache. rewrite Hip, Hpath. run_eff. rewrite Hnone. reflexivity.
    + reflexivity.
  - intros ip. eexists. split.
    + unfold retreivefromcache. run_eff. rewrite Hnone. run_eff.
      rewrite lookup_insert_eq. run_eff. rewrite lookup_empty. reflexivity.
    + reflexivity.
Qed.

Lemma cache_needs_store_witness :
  exists self,
    Response__init__ (PDict girona_payload) fresh_world = (Ok self, fresh_world)
    /\ shelves fresh_world !! joinpath (module_dir fresh_world) _CACHE_FILE = None
    /\ (exists w1, cache self fresh_world = (Raise DbmError, w1)
                   /\ shelves w1 = shelves fresh_world)
    /\ (exists w2, uncache self fresh_world = (Raise DbmError, w2)
                   /\ shelves w2 = shelves fresh_world)
    /\ (forall ip, exists w3,
           retreivefromcache ip fresh_world = (Ok None, w3)
           /\ shelves w3
              = <[joinpath (module_dir fresh_world) _CACHE_FILE := ∅]> (shelves fresh_world)).
Proof.
  eexists. split; [reflexivity|]. split; [reflexivity|].
  apply (cache_needs_store (PDict girona_payload) fresh_world); reflexivity.
Defined.

(** C10: for every record whose [ip] is a string [r] that is no key of its
    store, when the store holds an entry under the literal key ['ip'],
    [uncache] raises [KeyError r] from the [del]; nothing is deleted. An
    entry is an object that is true, as every mapping written by [cache] is
    ([Response_init_truthy]). *)
Theorem uncache_KeyError (self : Response) (r path : string) (w : World)
  (st : gmap string pyval) (v : pyval) :
  getattribute self "ip" = Ok (PStr r) ->
  cache_path self = Ok path ->
  shelves w !! path = Some st ->
  st !! r = None ->
  st !! "ip" = Some v ->
  truthy v = true ->
  exists w', uncache self w = (Raise (KeyError r), w') /\ shelves w' = shelves w.
Proof.
  intros Hip Hpath Hst Hr Hentry Htrue. eexists. split.
  - unfold uncache. rewrite Hip, Hpath.
    run_using ltac:(rewrite ?Hst, ?Hentry, ?Htrue, ?Hr). reflexivity.
  - reflexivity.
Qed.

Lemma uncache_KeyError_witness :
  getattribute girona "ip" = Ok (PStr "1.2.3.4")
  /\ cache_path girona = Ok "/opt/geoapy/cache"
  /\ (exists st v,
        shelves stray_world !! "/opt/geoapy/cache" = Some st
        /\ st !! "1.2.3.4" = None
        /\ st !! "ip" = Some v
        /\ truthy v = true)
  /\ exists w',
      uncache girona stray_world = (Raise (KeyError "1.2.3.4"), w')
      /\ shelves w' = shelves stray_world.
Proof.
  split; [reflexivity|]. split; [reflexivity|]. split.
  - eexists. eexists. repeat split; vm_compute; reflexivity.
  - eapply (uncache_KeyError girona "1.2.3.4" "/opt/geoapy/cache" stray_world);
      vm_compute; reflexivity.
Defined.

(** Without an entry that is true under ['ip'], [uncache] deletes nothing,
    whatever the store holds under the [ip] of the record. *)
Lemma uncache_without_ip_entry (self : Response) (ipv : pyval) (path : string)
  (w : World) (st : gmap string pyval) :
  getattribute self "ip" = Ok ipv ->
  cache_path self = Ok path ->
  shelves w !! path = Some st ->
  truthy (default PNone (st !! "ip")) = false ->
  exists w', uncache self w = (Ok tt, w') /\ shelves w' = shelves w.
Proof.
  intros Hip Hpath Hst Hfalse. eexists. split.
  - unfold uncache. rewrite Hip, Hpath.
    revert Hfalse. run_eff. intros Hfalse.
    run_using ltac:(rewrite ?Hst, ?Hfalse). reflexivity.
  - reflexivity.
Qed.

(** C7 fails on the code: [girona] is cached under ["1.2.3.4"], its own
    [ip]; [girona.uncache()] returns normally and the entry is still in the
    store, because the test before the [del] looks up the key ['ip']. *)
Theorem uncache_keeps_entry :
  getattribute girona "ip" = Ok (PStr "1.2.3.4")
  /\ cache girona keyed_world = (Ok tt, girona_cached)
  /\ store_of "/opt/geoapy/cache" girona_cached !! "1.2.3.4"
     = Some (PDict (__dict__ girona))
  /\ exists w',
      uncache girona girona_cached = (Ok tt, w')
      /\ trace w' = [ EvShelveGet "/opt/geoapy/cache" "ip";
                      EvShelveOpen "/opt/geoapy/cache" "w";
                      EvShelveSet "/opt/geoapy/cache" "1.2.3.4";
                      EvShelveOpen "/opt/geoapy/cache" "w" ]
      /\ store_of "/opt/geoapy/cache" w' !! "1.2.3.4"
         = Some (PDict (__dict__ girona)).
Proof.
  split; [reflexivity|]. split; [reflexivity|]. split; [vm_compute; reflexivity|].
  eexists. split; [reflexivity|]. split; vm_compute; reflexivity.
Qed.

(** A hit of [retreivefromcache] builds the record from the string [ip], not
    from the entry it read. *)
Lemma retreivefromcache_hit (ip : string) (w : World) (st : gmap string pyval) (v : pyval) :
  shelves w !! joinpath (module_dir w) _CACHE_FILE = Some st ->
  st !! ip = Some v ->
  truthy v = true ->
  retreivefromcache ip w
  = (match init_fields _FIELDS (PStr ip) {| __dict__ := [] |} with
     | Ok self => Ok (Some (setattr self "currentfolder" (PPath (module_dir w))))
     | Raise e => Raise e
     end,
     logged [ EvShelveGet (joinpath (module_dir w) _CACHE_FILE) ip;
              EvShelveOpen (joinpath (module_dir w) _CACHE_FILE) "c" ] w).
Proof.
  intros Hst Hv Htrue.
  unfold retreivefromcache, Response__init__.
  run_using ltac:(rewrite ?Hst, ?Hv, ?Htrue).
  destruct (init_fields _FIELDS (PStr ip) {| __dict__ := [] |}); reflexivity.
Qed.

(** C1 fails on the code: with [girona] cached under ["1.2.3.4"],
    [get("1.2.3.4")] sends no request and returns a record, but every field
    of that record is the empty string: its [ip] is not ["1.2.3.4"] and its
    [city] is not the cached ["Girona"]. *)
Theorem get_cached_record_blank :
  getattribute girona "ip" = Ok (PStr "1.2.3.4")
  /\ getattribute girona "city" = Ok (PStr "Girona")
  /\ store_of "/opt/geoapy/cache" girona_cached !! "1.2.3.4"
     = Some (PDict (__dict__ girona))
  /\ exists got w',
      get (Some "1.2.3.4") None None true girona_cached = (Ok got, w')
      /\ existsb is_http (trace w') = false
      /\ getattribute got "ip" = Ok (PStr "")
      /\ getattribute got "city" = Ok (PStr "")
      /\ Forall (fun f => getattribute got f = Ok (PStr "")) _FIELDS.
Proof.
  split; [reflexivity|]. split; [reflexivity|]. split; [vm_compute; reflexivity|].
  eexists. eexists. split; [vm_compute; reflexivity|].
  split; [vm_compute; reflexivity|]. split; [reflexivity|]. split; [reflexivity|].
  repeat constructor.
Qed.

(** ** What [get] leaves untouched *)

Lemma read_only_step_refl (w : World) : read_only_step w w.
Proof. repeat split. now exists []. Qed.

Lemma read_only_step_trans (w1 w2 w3 : World) :
  read_only_step w1 w2 -> read_only_step w2 w3 -> read_only_step w1 w3.
Proof.
  intros (Hs1 & Hf1 & evs1 & Ht1 & Hq1) (Hs2 & Hf2 & evs2 & Ht2 & Hq2).
  split; [|split].
  - intros db. now rewrite Hs2.
  - congruence.
  - exists (evs2 ++ evs1). split.
    + now rewrite Ht2, Ht1, app_assoc.
    + rewrite forallb_app. now rewrite Hq1, Hq2.
Qed.

Section ReadsOnly.
Context {A B : Type}.

Lemma reads_only_ret (a : A) : reads_only (ret a).
Proof. intros w. apply read_only_step_refl. Qed.

Lemma reads_only_raise (e : pyexn) : reads_only (@raise A e).
Proof. intros w. apply read_only_step_refl. Qed.

Lemma reads_only_lift (c : result A) : reads_only (lift c).
Proof. intros w. apply read_only_step_refl. Qed.

Lemma reads_only_bind (c : Eff A) (k : A -> Eff B) :
  reads_only c -> (forall a, reads_only (k a)) -> reads_only (bind c k).
Proof.
  intros Hc Hk w. unfold bind. specialize (Hc w).
  destruct (c w) as [[a|e] w1]; simpl in *; [|exact Hc].
  eapply read_only_step_trans; [exact Hc | apply Hk].
Qed.
End ReadsOnly.

Lemma reads_only_log (e : event) : is_store_write e = false -> reads_only (log e).
Proof.
  intros He w. repeat split. exists [e]. split; [reflexivity|].
  simpl. now rewrite He.
Qed.

Lemma reads_only_here : reads_only here.
Proof. intros w. apply read_only_step_refl. Qed.

Lemma reads_only_const {A : Type} (f : World -> result A) :
  reads_only (fun w => (f w, w)).
Proof. intros w. apply read_only_step_refl. Qed.

Lemma reads_only_path_exists (path : string) : reads_only (path_exists path).
Proof.
  apply reads_only_bind; [now apply reads_only_log|].
  intros _. apply (reads_only_const (fun w => Ok _)).
Qed.

Lemma reads_only_read_text (path : string) : reads_only (read_text path).
Proof.
  apply reads_only_bind; [now apply reads_only_log|].
  intros _ w. destruct (files w !! path); apply read_only_step_refl.
Qed.

Lemma reads_only_shelve_get (db key : string) : reads_only (shelve_get db key).
Proof.
  apply reads_only_bind; [now apply reads_only_log|].
  intros _. apply (reads_only_const (fun w => Ok _)).
Qed.

Lemma reads_only_requests_get (url : string) : reads_only (requests_get url).
Proof.
  apply reads_only_bind; [now apply reads_only_log|].
  intros _. apply (reads_only_const (fun w => remote w url)).
Qed.

(** Opening a store changes no entry, unless the flag is ['n']; the flag
    ['c'] makes a missing store an empty one. *)
Lemma reads_only_shelve_open (path flag : string) :
  flag <> "n" -> reads_only (shelve_open path flag).
Proof.
  intros Hflag. apply reads_only_bind; [now apply reads_only_log|].
  intros _ w. apply String.eqb_neq in Hflag. rewrite Hflag.
  destruct (shelves w !! path) as [st|] eqn:Hst; [apply read_only_step_refl|].
  destruct (String.eqb flag "c"); [|apply read_only_step_refl].
  split; [|split; [reflexivity | now exists []]].
  intros db. unfold store_of. simpl.
  destruct (decide (path = db)) as [<-|Hne].
  - now rewrite lookup_insert_eq, Hst.
  - now rewrite lookup_insert_ne.
Qed.

Lemma reads_only_Response_init (attributes : pyval) :
  reads_only (Response__init__ attributes).
Proof.
  apply reads_only_bind; [apply reads_only_lift|].
  intros self. apply reads_only_bind; [apply reads_only_here|].
  intros folder. apply reads_only_ret.
Qed.

Lemma reads_only_retreivefromcache (ip : string) : reads_only (retreivefromcache ip).
Proof.
  apply reads_only_bind; [apply reads_only_here|]. intros folder.
  apply reads_only_bind; [now apply reads_only_shelve_open|]. intros db.
  apply reads_only_bind; [apply reads_only_shelve_get|]. intros value.
  destruct (truthy value); [|apply reads_only_ret].
  apply reads_only_bind; [apply reads_only_Response_init|].
  intros self. apply reads_only_ret.
Qed.

Lemma reads_only_getkey : reads_only getkey.
Proof.
  apply reads_only_bind; [apply reads_only_here|]. intros folder.
  apply reads_only_bind; [apply reads_only_path_exists|]. intros found.
  destruct found; [apply reads_only_read_text | apply reads_only_raise].
Qed.

Lemma reads_only_respond (r : HttpResponse) : reads_only (respond r).
Proof.
  unfold respond.
  repeat match goal with
         | |- reads_only (if ?b then _ else _) => destruct b
         end; try apply reads_only_raise.
  apply reads_only_bind; [apply reads_only_lift|].
  intros body. apply reads_only_Response_init.
Qed.

Lemma reads_only_fetch (query_str : string) (ip : option string)
  (fields excluded_fields : option (list string)) :
  reads_only (fetch query_str ip fields excluded_fields).
Proof.
  unfold fetch.
  apply reads_only_bind.
  { destruct (given_str ip); [|apply reads_only_ret].
    apply reads_only_bind; [apply reads_only_lift|]. intros _. apply reads_only_ret. }
  intros q1. apply reads_only_bind.
  { destruct (given_list fields); [|apply reads_only_ret].
    apply reads_only_bind; [apply reads_only_lift|]. intros ?. apply reads_only_ret. }
  intros q2. apply reads_only_bind.
  { destruct (given_list excluded_fields); [|apply reads_only_ret].
    apply reads_only_bind; [apply reads_only_lift|]. intros ?. apply reads_only_ret. }
  intros q3. apply reads_only_bind; [apply reads_only_requests_get|].
  intros r. apply reads_only_respond.
Qed.

(** C8: for every invocation of [get], every store has afterwards the
    entries it had before, and nothing [get] did sets or deletes an entry:
    the only accesses are the [shelve.open] with flag ['c'] and the
    [db.get] of [retreivefromcache]. (A store that did not exist may exist
    afterwards, empty.) *)
Theorem get_preserves_cache (ip : option string)
  (fields excluded_fields : option (list string)) (cache_search : bool) (w : World) :
  (forall db,
      store_of db (snd (get ip fields excluded_fields cache_search w)) = store_of db w)
  /\ exists evs,
      trace (snd (get ip fields excluded_fields cache_search w)) = evs ++ trace w
      /\ forallb (fun e => negb (is_store_write e)) evs = true.
Proof.
  assert (H : reads_only (get ip fields excluded_fields cache_search)).
  { unfold get. apply reads_only_bind; [apply reads_only_getkey|]. intros key.
    destruct (cache_search && given_str ip); [|apply reads_only_fetch].
    apply reads_only_bind; [apply reads_only_retreivefromcache|].
    intros [value|]; [apply reads_only_ret | apply reads_only_fetch]. }
  destruct (H w) as (Hs & _ & Hev). split; assumption.
Qed.

(** ** The answer of the provider *)

Lemma respond_world (r : HttpResponse) (w : World) : snd (respond r w) = w.
Proof.
  unfold respond, Response__init__.
  repeat match goal with
         | |- context [if ?b then _ else _] => destruct b
         end; try reflexivity.
  run_eff. destruct (json r) as [body|e]; [|reflexivity].
  destruct (init_fields _FIELDS body {| __dict__ := [] |}); reflexivity.
Qed.

(** A run of [fetch] either stops at a validator, having done nothing, or
    sends one request and ends with what [respond] makes of the answer. *)
Lemma fetch_run (query_str : string) (ip : option string)
  (fields excluded_fields : option (list string)) (w w' : World) (out : result Response) :
  fetch query_str ip fields excluded_fields w = (out, w') ->
  w' = w
  \/ exists url,
      w' = logged [EvHttpGet url] w
      /\ match remote w url with
         | Ok r => respond r w' = (out, w')
         | Raise e => out = Raise e
         end.
Proof.
  unfold fetch.
  destruct (given_str ip); [destruct (checkipformat (default EmptyString ip)) as [[]|e]|];
    (destruct (given_list fields);
     [destruct (formatfields (default [] fields)) as [include|e1]|]);
    (destruct (given_list excluded_fields);
     [destruct (formatfields (default [] excluded_fields)) as [exclude|e2]|]);
    run_eff;
    try (intros [= <- <-]; left; reflexivity);
    match goal with
    | |- context [remote w ?u] =>
        intros Hrun; right; exists u;
        destruct (remote w u) as [r|e3];
        [ pose proof (respond_world r (logged [EvHttpGet u] w)) as Hw;
          unfold logged in Hw; cbn [app] in Hw;
          rewrite Hrun in Hw; cbn [snd] in Hw; subst w';
          split; [reflexivity | exact Hrun]
        | injection Hrun as <- <-; split; reflexivity ]
    end.
Qed.

Lemma retreivefromcache_run (ip : string) (w w' : World) (out : result (option Response)) :
  retreivefromcache ip w = (out, w') ->
  remote w' = remote w /\ exists path tr, trace w' = EvShelveGet path ip :: tr.
Proof.
  unfold retreivefromcache, Response__init__. run_eff.
  destruct (shelves w !! joinpath (module_dir w) _CACHE_FILE); run_eff;
    match goal with
    | |- context [truthy ?v] => destruct (truthy v)
    end; run_eff;
    try destruct (init_fields _FIELDS (PStr ip) {| __dict__ := [] |});
    intros [= <- <-]; split; try reflexivity; eauto.
Qed.

(** C5, as amended: whenever [get] has sent its request to [url] and the
    provider answered [r], the outcome of [get] is the record the
    constructor builds from the JSON body when the status is 200,
    [RequestError(code, text)] with the text of that code when the status is
    401, 403, 404, 423 or 429, and [RequestError('Unknown', 'Unknown')], with
    capital letters, for every other status. *)
Theorem get_status_mapping (ip : option string)
  (fields excluded_fields : option (list string)) (cache_search : bool)
  (w w' : World) (out : result Response) (url : string) (tr : list event)
  (r : HttpResponse) :
  get ip fields excluded_fields cache_search w = (out, w') ->
  trace w' = EvHttpGet url :: tr ->
  remote w url = Ok r ->
  (status_code r = 200 ->
     forall body, json r = Ok body -> Response__init__ body w' = (out, w'))
  /\ (status_code r = 401 -> out = Raise (RequestError (PInt 401) text_401))
  /\ (status_code r = 403 -> out = Raise (RequestError (PInt 403) text_403))
  /\ (status_code r = 404 -> out = Raise (RequestError (PInt 404) text_404))
  /\ (status_code r = 423 -> out = Raise (RequestError (PInt 423) text_423))
  /\ (status_code r = 429 -> out = Raise (RequestError (PInt 429) text_429))
  /\ (~ In (status_code r) [200; 401; 403; 404; 423; 429] ->
        out = Raise (RequestError (PStr "Unknown") "Unknown")).
Proof.
  intros Hrun Htrace Hremote.
  assert (Hrespond : respond r w' = (out, w')).
  { assert (Hfetch : forall w2 q,
      remote w2 = remote w ->
      (forall u t, trace w2 <> EvHttpGet u :: t) ->
      fetch q ip fields excluded_fields w2 = (out, w') -> respond r w' = (out, w')).
    { intros w2 q Hrem Hhead Hf. apply fetch_run in Hf as [->|(u & -> & Hf)].
      - exfalso. eapply Hhead, Htrace.
      - cbn in Htrace. injection Htrace as -> _.
        rewrite Hrem, Hremote in Hf. exact Hf. }
    revert Hrun. unfold get, getkey.
    destruct (files w !! joinpath (module_dir w) __KEY_FILE) as [key|] eqn:Hkey;
      run_using ltac:(rewrite ?Hkey); [|intros [= <- <-]; discriminate Htrace].
    destruct (cache_search && given_str ip).
    - match goal with
      | |- context [retreivefromcache ?a ?b] =>
          destruct (retreivefromcache a b) as [hit w2] eqn:Hhit
      end.
      apply retreivefromcache_run in Hhit as (Hrem & path & t & Hhead).
      destruct hit as [[value|]|e]; run_eff.
      + intros [= <- <-]. rewrite Hhead in Htrace. discriminate.
      + apply Hfetch; [exact Hrem|]. intros u t'. rewrite Hhead. discriminate.
      + intros [= <- <-]. rewrite Hhead in Htrace. discriminate.
    - apply Hfetch; [reflexivity|]. intros u t. discriminate. }
  clear Hrun. unfold respond in Hrespond.
  repeat split; intros Hcode.
  - intros body Hbody. rewrite Hcode in Hrespond.
    change (200 =? 200) with true in Hrespond. cbv iota in Hrespond.
    revert Hrespond. run_eff. rewrite Hbody. run_eff. trivial.
  - rewrite Hcode in Hrespond. exact (eq_sym (f_equal fst Hrespond)).
  - rewrite Hcode in Hrespond. exact (eq_sym (f_equal fst Hrespond)).
  - rewrite Hcode in Hrespond. exact (eq_sym (f_equal fst Hrespond)).
  - rewrite Hcode in Hrespond. exact (eq_sym (f_equal fst Hrespond)).
  - rewrite Hcode in Hrespond. exact (eq_sym (f_equal fst Hrespond)).
  - repeat match type of Hrespond with
           | context [?a =? ?b] =>
               destruct (Z.eqb_spec a b) as [Heq|_];
               [exfalso; apply Hcode; rewrite Heq; cbn [In]; tauto|]
           end.
    exact (eq_sym (f_equal fst Hrespond)).
Qed.

Lemma get_status_mapping_witness :
  let url := "https://api.ipgeolocation.io/ipgeo?apiKey=SECRET" in
  let run := get None None None true throttled_world in
  trace (snd run) = [ EvHttpGet url; EvRead "/opt/geoapy/key.txt";
                      EvExists "/opt/geoapy/key.txt" ]
  /\ remote throttled_world url = Ok {| status_code := 429; json := Ok PNone |}
  /\ fst run = Raise (RequestError (PInt 429) text_429).
Proof.
  split; [vm_compute; reflexivity|]. split; [reflexivity|].
  refine (proj1 (proj2 (proj2 (proj2 (proj2 (proj2
    (get_status_mapping None None None true throttled_world
       (snd (get None None None true throttled_world))
       (fst (get None None None true throttled_world))
       "https://api.ipgeolocation.io/ipgeo?apiKey=SECRET"
       [ EvRead "/opt/geoapy/key.txt"; EvExists "/opt/geoapy/key.txt" ]
       {| status_code := 429; json := Ok PNone |} _ _ _)))))) _).
  - apply surjective_pairing.
  - vm_compute. reflexivity.
  - reflexivity.
  - reflexivity.
Defined.

(** C5, as stated, fails for the statuses without a text of their own: the
    provider answers 500 and [get] raises [RequestError('Unknown',
    'Unknown')], which is not [RequestError('unknown', 'unknown')]. *)
Lemma get_unknown_status_capitalised :
  remote failing_world "https://api.ipgeolocation.io/ipgeo?apiKey=SECRET"
  = Ok {| status_code := 500; json := Ok PNone |}
  /\ trace (snd (get None None None true failing_world))
     = [ EvHttpGet "https://api.ipgeolocation.io/ipgeo?apiKey=SECRET";
         EvRead "/opt/geoapy/key.txt"; EvExists "/opt/geoapy/key.txt" ]
  /\ fst (get None None None true failing_world)
     = Raise (RequestError (PStr "Unknown") "Unknown")
  /\ fst (get None None None true failing_world)
     <> Raise (RequestError (PStr "unknown") "unknown").
Proof.
  split; [reflexivity|]. split; [vm_compute; reflexivity|].
  split; [vm_compute; reflexivity|].
  vm_compute. discriminate.
Qed.

(** ** The address check *)

(** A digit is no white space, no sign, no underscore and no dot. *)
Lemma digit_facts (c : ascii) :
  is_digit c = true ->
  is_space c = false
  /\ Ascii.eqb c "-" = false /\ Ascii.eqb c "+" = false
  /\ Ascii.eqb c "_" = false /\ Ascii.eqb c "." = false
  /\ digit_of c = Some (Z.of_nat (nat_of_ascii c) - 48).
Proof.
  destruct c as [[] [] [] [] [] [] [] []]; vm_compute; intros H;
    try discriminate H; repeat split.
Qed.

Lemma low_digit (c : ascii) : in_range "0" "2" c = true -> is_digit c = true.
Proof.
  destruct c as [[] [] [] [] [] [] [] []]; vm_compute; intros H;
    try discriminate H; reflexivity.
Qed.

(** The matcher on one chunk of the pattern, followed by [rest]: it
    succeeds exactly when the input starts with one, two or three digits (the
    first of three being 0, 1 or 2) and [rest] matches what follows. *)
Lemma rmatch_chunk (rest : regex) (b : bool) (s : list ascii)
  (k : bool -> list ascii -> bool) :
  rmatch (Cat (Opt (Range "0" "2")) (Cat (Rep (Range "0" "9") 1 2) rest)) b s k = true
  <-> exists l t, s = l ++ t /\ chunkb l = true /\ rmatch rest false t k = true.
Proof.
  cbn [rmatch Nat.pred]. split.
  - intros H.
    destruct s as [|x [|y [|z t]]];
      repeat match type of H with
             | context [in_range ?a ?b ?c] => destruct (in_range a b c) eqn:?
             end;
      repeat match type of H with
             | context [rmatch rest false ?u k] => destruct (rmatch rest false u k) eqn:?
             end;
      cbn in H; try discriminate H;
      try match goal with
          | Hlow : in_range "0" "2" ?c = true, Hdig : in_range "0" "9" ?c = false |- _ =>
              apply low_digit in Hlow; unfold is_digit in Hlow; congruence
          end;
      first
        [ exists [x; y; z], t; split; [reflexivity|]; split; [|assumption];
          unfold chunkb, is_digit;
          repeat match goal with Hr : in_range _ _ _ = _ |- _ => rewrite Hr end;
          reflexivity
        | exists [x; y]; eexists; split; [reflexivity|]; split; [|eassumption];
          unfold chunkb, is_digit;
          repeat match goal with Hr : in_range _ _ _ = _ |- _ => rewrite Hr end;
          reflexivity
        | exists [x]; eexists; split; [reflexivity|]; split; [|eassumption];
          unfold chunkb, is_digit;
          repeat match goal with Hr : in_range _ _ _ = _ |- _ => rewrite Hr end;
          reflexivity ].
  - intros (l & t & -> & Hl & Hk).
    destruct l as [|a [|b2 [|c [|? ?]]]]; try discriminate Hl; cbn [chunkb] in Hl;
      unfold is_digit in Hl;
      repeat match type of Hl with
             | _ && _ = true => apply andb_prop in Hl as [Hl ?]
             end.
    all: cbn [app];
      repeat match goal with Hr : _ = true |- _ => rewrite Hr; clear Hr end;
      repeat first [progress cbn [andb orb] | rewrite orb_true_r]; reflexivity.
Qed.

Lemma rmatch_dot (rest : regex) (b : bool) (s : list ascii)
  (k : bool -> list ascii -> bool) :
  rmatch (Cat (Chr ".") rest) b s k = true
  <-> exists t, s = "."%char :: t /\ rmatch rest false t k = true.
Proof.
  cbn [rmatch]. split.
  - destruct s as [|x t]; [discriminate|].
    intros H. apply andb_prop in H as [Hx Hk].
    apply Ascii.eqb_eq in Hx as ->. now exists t.
  - intros (t & -> & Hk). now rewrite Ascii.eqb_refl.
Qed.

Lemma rmatch_eol (b : bool) (s : list ascii) :
  rmatch (Cat Eol Eps) b s (fun _ _ => true) = true
  <-> s = [] \/ s = [ascii_of_nat 10].
Proof.
  cbn [rmatch]. split.
  - destruct s as [|x [|y t]]; [now left| |discriminate].
    rewrite andb_true_r. intros Hx. apply Ascii.eqb_eq in Hx as ->. now right.
  - intros [->| ->]; reflexivity.
Qed.

(** What the pattern of line 172 matches: four chunks with dots between
    them, and then the end of the string or one last newline. *)
Lemma re_match_ipv4 (ip : string) :
  re_match ipv4 ip = true
  <-> exists a b c d tl,
      list_ascii_of_string ip
      = a ++ "."%char :: b ++ "."%char :: c ++ "."%char :: d ++ tl
      /\ chunkb a = true /\ chunkb b = true /\ chunkb c = true /\ chunkb d = true
      /\ (tl = [] \/ tl = [ascii_of_nat 10]).
Proof.
  unfold re_match, ipv4, ipv4_chunk, cat_all. cbn [app fold_right].
  set (k := fun (_ : bool) (_ : list ascii) => true).
  change (rmatch (Cat Bol ?r) true ?s k) with (rmatch r true s k).
  split.
  - intros H.
    apply rmatch_chunk in H as (a & t1 & E1 & Ha & H).
    apply rmatch_dot in H as (t2 & -> & H).
    apply rmatch_chunk in H as (b & t3 & -> & Hb & H).
    apply rmatch_dot in H as (t4 & -> & H).
    apply rmatch_chunk in H as (c & t5 & -> & Hc & H).
    apply rmatch_dot in H as (t6 & -> & H).
    apply rmatch_chunk in H as (d & tl & -> & Hd & H).
    apply rmatch_eol in H.
    exists a, b, c, d, tl. auto 10.
  - intros (a & b & c & d & tl & E & Ha & Hb & Hc & Hd & Htl). rewrite E.
    apply rmatch_chunk. exists a. eexists. split; [reflexivity|]. split; [exact Ha|].
    apply rmatch_dot. eexists. split; [reflexivity|].
    apply rmatch_chunk. exists b. eexists. split; [reflexivity|]. split; [exact Hb|].
    apply rmatch_dot. eexists. split; [reflexivity|].
    apply rmatch_chunk. exists c. eexists. split; [reflexivity|]. split; [exact Hc|].
    apply rmatch_dot. eexists. split; [reflexivity|].
    apply rmatch_chunk. exists d, tl. split; [reflexivity|]. split; [exact Hd|].
    apply rmatch_eol. exact Htl.
Qed.

Lemma chunkb_digits (l : list ascii) :
  chunkb l = true -> forallb is_digit l = true /\ l <> [].
Proof.
  destruct l as [|a [|b [|c [|? ?]]]]; try discriminate; cbn [chunkb forallb]; intros H.
  - now rewrite H.
  - apply andb_prop in H as [Ha Hb]. now rewrite Ha, Hb.
  - apply andb_prop in H as [H Hc]. apply andb_prop in H as [Ha Hb].
    apply low_digit in Ha. now rewrite Ha, Hb, Hc.
Qed.

Lemma digits_nodot (l : list ascii) : forallb is_digit l = true -> nodot l = true.
Proof.
  induction l as [|c t IH]; [reflexivity|]. cbn [forallb nodot].
  intros H. apply andb_prop in H as [Hc Ht].
  destruct (digit_facts c Hc) as (_ & _ & _ & _ & Hdot & _).
  rewrite Hdot. cbn. now apply IH.
Qed.

(** Splitting at the dots a string built from pieces without dots gives the
    pieces back. *)
Lemma split_dot_nodot (l : list ascii) :
  nodot l = true -> split_dot (string_of_list_ascii l) = [string_of_list_ascii l].
Proof.
  induction l as [|c t IH]; [reflexivity|]. cbn [nodot forallb string_of_list_ascii split_dot].
  intros H. apply andb_prop in H as [Hc Ht]. apply negb_true_iff in Hc.
  rewrite Hc, (IH Ht). reflexivity.
Qed.

Lemma split_dot_app (l rest : list ascii) :
  nodot l = true ->
  split_dot (string_of_list_ascii (l ++ "."%char :: rest))
  = string_of_list_ascii l :: split_dot (string_of_list_ascii rest).
Proof.
  induction l as [|c t IH]; [reflexivity|].
  cbn [nodot forallb app string_of_list_ascii split_dot].
  intros H. apply andb_prop in H as [Hc Ht]. apply negb_true_iff in Hc.
  rewrite Hc, (IH Ht). reflexivity.
Qed.

(** [int] on digits: nothing is stripped and the value is the decimal one. *)
Lemma int_digits_decimal (l : list ascii) : forall acc,
  forallb is_digit l = true ->
  int_digits acc l
  = Some (fold_left (fun a c => 10 * a + (Z.of_nat (nat_of_ascii c) - 48)) l acc).
Proof.
  induction l as [|c t IH]; intros acc H; [reflexivity|].
  cbn [forallb] in H. apply andb_prop in H as [Hc Ht].
  destruct (digit_facts c Hc) as (_ & _ & _ & Hu & _ & Hd).
  cbn [int_digits fold_left]. rewrite Hu, Hd. now apply IH.
Qed.

Lemma lstrip_digit (c : ascii) (t : list ascii) :
  is_digit c = true -> lstrip (c :: t) = c :: t.
Proof.
  intros Hc. destruct (digit_facts c Hc) as (Hs & _). cbn [lstrip]. now rewrite Hs.
Qed.

Lemma strip_digits (l tl : list ascii) :
  forallb is_digit l = true -> l <> [] ->
  tl = [] \/ tl = [ascii_of_nat 10] ->
  strip (l ++ tl) = l.
Proof.
  intros Hl Hne Htl. unfold strip.
  assert (Hrev : lstrip (rev l) = rev l).
  { destruct (rev l) as [|c t] eqn:E; [reflexivity|].
    apply lstrip_digit.
    assert (Hin : In c l) by (apply in_rev; rewrite E; now left).
    rewrite forallb_forall in Hl. now apply Hl. }
  destruct l as [|c t]; [contradiction|].
  cbn [forallb] in Hl. apply andb_prop in Hl as [Hc _].
  change ((c :: t) ++ tl) with (c :: (t ++ tl)). rewrite (lstrip_digit c _ Hc).
  change (c :: (t ++ tl)) with ((c :: t) ++ tl).
  destruct Htl as [->| ->].
  - rewrite app_nil_r, Hrev. apply rev_involutive.
  - rewrite rev_app_distr.
    change (rev [ascii_of_nat 10]) with [ascii_of_nat 10]. cbn [app lstrip].
    change (is_space (ascii_of_nat 10)) with true. cbv iota.
    rewrite Hrev. apply rev_involutive.
Qed.

(** [int] of a chunk, with or without the newline after it. *)
Lemma py_int_digits (l tl : list ascii) :
  forallb is_digit l = true -> l <> [] ->
  tl = [] \/ tl = [ascii_of_nat 10] ->
  py_int (string_of_list_ascii (l ++ tl)) = Ok (decimal l).
Proof.
  intros Hl Hne Htl. unfold py_int.
  rewrite list_ascii_of_string_of_list_ascii, (strip_digits l tl Hl Hne Htl).
  destruct l as [|c t]; [contradiction|].
  pose proof Hl as Hall. cbn [forallb] in Hl. apply andb_prop in Hl as [Hc _].
  destruct (digit_facts c Hc) as (_ & Hm & Hp & _ & _ & Hd).
  rewrite Hm, Hp. unfold int_unsigned. rewrite Hd.
  rewrite (int_digits_decimal (c :: t) 0 Hall). reflexivity.
Qed.

Lemma py_int_chunk (l : list ascii) :
  forallb is_digit l = true -> l <> [] ->
  py_int (string_of_list_ascii l) = Ok (decimal l).
Proof.
  intros Hl Hne. rewrite <- (app_nil_r l) at 1. apply py_int_digits; auto.
Qed.

Lemma nodot_chunk_tail (l tl : list ascii) :
  chunkb l = true -> tl = [] \/ tl = [ascii_of_nat 10] -> nodot (l ++ tl) = true.
Proof.
  intros Hl Htl. apply chunkb_digits in Hl as [Hl _]. apply digits_nodot in Hl.
  unfold nodot in *. rewrite forallb_app, Hl. destruct Htl as [->| ->]; reflexivity.
Qed.

(** With the pattern matched, the outcome depends on the four numbers. *)
Lemma checkipformat_matched (ip : string) (a b c d tl : list ascii) :
  list_ascii_of_string ip = a ++ "."%char :: b ++ "."%char :: c ++ "."%char :: d ++ tl ->
  chunkb a = true -> chunkb b = true -> chunkb c = true -> chunkb d = true ->
  tl = [] \/ tl = [ascii_of_nat 10] ->
  checkipformat ip
  = if (decimal a <? 256) && (decimal b <? 256) && (decimal c <? 256) && (decimal d <? 256)
    then Ok tt else Raise (IncorrectIpFormat "ipv4").
Proof.
  intros E Ha Hb Hc Hd Htl. unfold checkipformat.
  assert (Hm : re_match ipv4 ip = true).
  { apply re_match_ipv4. exists a, b, c, d, tl. auto 10. }
  rewrite Hm, <- (string_of_list_ascii_of_string ip), E.
  rewrite !split_dot_app by (rewrite <- (app_nil_r _); apply nodot_chunk_tail; auto).
  rewrite split_dot_nodot by (apply nodot_chunk_tail; auto).
  cbn [map_result].
  destruct (chunkb_digits a Ha), (chunkb_digits b Hb), (chunkb_digits c Hc),
    (chunkb_digits d Hd).
  rewrite !py_int_chunk, py_int_digits by auto.
  cbn [rbind List.filter].
  destruct (decimal a <? 256), (decimal b <? 256), (decimal c <? 256), (decimal d <? 256);
    reflexivity.
Qed.

(** Conversely, a string is its pieces joined by dots. *)
Lemma split_dot_nonempty (s : string) : split_dot s <> [].
Proof.
  destruct s as [|c t]; [discriminate|]. cbn [split_dot].
  destruct (Ascii.eqb c "."%char); [discriminate|].
  destruct (split_dot t); discriminate.
Qed.

Lemma split_dot_dotted (s : string) : list_ascii_of_string s = dotted (split_dot s).
Proof.
  induction s as [|c t IH]; [reflexivity|].
  cbn [split_dot list_ascii_of_string].
  pose proof (split_dot_nonempty t) as Hne.
  destruct (split_dot t) as [|p rest]; [contradiction|].
  rewrite IH. destruct (Ascii.eqb_spec c "."%char) as [->|_]; [reflexivity|].
  destruct rest; reflexivity.
Qed.

(** The segments of the specification are the chunks of the pattern whose
    number is below 256. *)
Lemma spec_segment_chunk (s : string) :
  spec_segment s = chunkb (list_ascii_of_string s) && (decimal (list_ascii_of_string s) <? 256).
Proof. reflexivity. Qed.

Lemma spec_dotted_quad_inv (ip : string) :
  spec_dotted_quad ip = true ->
  exists a b c d,
    list_ascii_of_string ip = a ++ "."%char :: b ++ "."%char :: c ++ "."%char :: d ++ []
    /\ chunkb a = true /\ chunkb b = true /\ chunkb c = true /\ chunkb d = true
    /\ (decimal a <? 256) && (decimal b <? 256) && (decimal c <? 256) && (decimal d <? 256)
       = true.
Proof.
  unfold spec_dotted_quad. rewrite (split_dot_dotted ip).
  destruct (split_dot ip) as [|a [|b [|c [|d [|? ?]]]]]; try discriminate.
  rewrite !spec_segment_chunk. intros H.
  repeat match goal with
         | Hx : _ && _ = true |- _ => apply andb_prop in Hx as [? ?]
         end.
  exists (list_ascii_of_string a), (list_ascii_of_string b),
    (list_ascii_of_string c), (list_ascii_of_string d).
  cbn [dotted]. rewrite app_nil_r.
  repeat split; try assumption.
  repeat (apply andb_true_intro; split); assumption.
Qed.

Lemma spec_dotted_quad_intro (ip : string) (a b c d : list ascii) :
  list_ascii_of_string ip = a ++ "."%char :: b ++ "."%char :: c ++ "."%char :: d ->
  chunkb a = true -> chunkb b = true -> chunkb c = true -> chunkb d = true ->
  spec_dotted_quad ip
  = (decimal a <? 256) && (decimal b <? 256) && (decimal c <? 256) && (decimal d <? 256).
Proof.
  intros E Ha Hb Hc Hd. unfold spec_dotted_quad.
  rewrite <- (string_of_list_ascii_of_string ip), E.
  rewrite !split_dot_app by (rewrite <- (app_nil_r _); apply nodot_chunk_tail; auto).
  rewrite split_dot_nodot
    by (rewrite <- (app_nil_r _); apply nodot_chunk_tail; auto).
  rewrite !spec_segment_chunk, !list_ascii_of_string_of_list_ascii.
  rewrite Ha, Hb, Hc, Hd. reflexivity.
Qed.

Lemma string_of_list_ascii_app (l1 l2 : list ascii) :
  string_of_list_ascii (l1 ++ l2) = string_of_list_ascii l1 +:+ string_of_list_ascii l2.
Proof.
  induction l1 as [|c t IH]; [reflexivity|].
  cbn [string_of_list_ascii app]. rewrite IH. reflexivity.
Qed.

Lemma list_ascii_of_string_app (s1 s2 : string) :
  list_ascii_of_string (s1 +:+ s2) = list_ascii_of_string s1 ++ list_ascii_of_string s2.
Proof.
  induction s1 as [|c t IH]; [reflexivity|].
  change (String c t +:+ s2) with (String c (t +:+ s2)).
  cbn [list_ascii_of_string app]. now rewrite IH.
Qed.

Lemma quad_tail (a b c d tl : list ascii) :
  (a ++ "."%char :: b ++ "."%char :: c ++ "."%char :: d) ++ tl
  = a ++ "."%char :: b ++ "."%char :: c ++ "."%char :: d ++ tl.
Proof.
  repeat (rewrite <- app_assoc; cbn [app]; f_equal; f_equal).
Qed.

(** C4 fails on the code. The three examples of the claim behave as it says,
    but a dotted quad followed by a newline is accepted although its last
    segment, ["4" ++ newline], is not made of digits: [$] also matches just
    before a newline that ends the string, and [int] drops the white space
    around the digits. *)
Theorem checkipformat_trailing_newline :
  checkipformat ("1.2.3.4" +:+ nl) = Ok tt
  /\ spec_dotted_quad ("1.2.3.4" +:+ nl) = false
  /\ split_dot ("1.2.3.4" +:+ nl) = ["1"; "2"; "3"; "4" +:+ nl]
  /\ checkipformat "192.168.1.1" = Ok tt
  /\ checkipformat "999.1.1.1" = Raise (IncorrectIpFormat "ipv4")
  /\ checkipformat "1.2.3" = Raise (IncorrectIpFormat "ipv4").
Proof. repeat split; vm_compute; reflexivity. Qed.

(** X1: what [checkipformat] accepts are the dotted quads of the
    specification, and the same followed by one newline. Every other string
    raises [IncorrectIpFormat('ipv4')]; no other exception escapes. *)
Theorem checkipformat_accepts (ip : string) :
  (checkipformat ip = Ok tt \/ checkipformat ip = Raise (IncorrectIpFormat "ipv4"))
  /\ (checkipformat ip = Ok tt
      <-> spec_dotted_quad ip = true
          \/ exists ip', ip = ip' +:+ nl /\ spec_dotted_quad ip' = true).
Proof.
  split.
  - destruct (re_match ipv4 ip) eqn:Hm.
    + apply re_match_ipv4 in Hm as (a & b & c & d & tl & E & Ha & Hb & Hc & Hd & Htl).
      rewrite (checkipformat_matched ip a b c d tl E Ha Hb Hc Hd Htl).
      destruct (_ && _); auto.
    + right. unfold checkipformat. now rewrite Hm.
  - split.
    + intros Hok. destruct (re_match ipv4 ip) eqn:Hm;
        [|unfold checkipformat in Hok; rewrite Hm in Hok; discriminate].
      apply re_match_ipv4 in Hm as (a & b & c & d & tl & E & Ha & Hb & Hc & Hd & Htl).
      rewrite (checkipformat_matched ip a b c d tl E Ha Hb Hc Hd Htl) in Hok.
      destruct (_ && _) eqn:Hlt in Hok; [|discriminate].
      destruct Htl as [->| ->].
      * left. rewrite app_nil_r in E.
        now rewrite (spec_dotted_quad_intro ip a b c d E Ha Hb Hc Hd).
      * right.
        exists (string_of_list_ascii (a ++ "."%char :: b ++ "."%char :: c ++ "."%char :: d)).
        split.
        -- rewrite <- (string_of_list_ascii_of_string ip), E, <- quad_tail.
           apply string_of_list_ascii_app.
        -- rewrite (spec_dotted_quad_intro _ a b c d); auto.
           apply list_ascii_of_string_of_list_ascii.
    + intros [Hspec | (ip' & -> & Hspec)];
        apply spec_dotted_quad_inv in Hspec as (a & b & c & d & E & Ha & Hb & Hc & Hd & Hlt).
      * rewrite (checkipformat_matched ip a b c d [] E Ha Hb Hc Hd); [|now left].
        now rewrite Hlt.
      * rewrite (checkipformat_matched (ip' +:+ nl) a b c d [ascii_of_nat 10]);
          auto; [now rewrite Hlt|].
        rewrite list_ascii_of_string_app, E, app_nil_r. apply quad_tail.
Qed.

(** ** Further properties of the cache and the credential *)

(** X2: [cache] writes the attributes of the record under its [ip], over
    whatever was there, and touches nothing else. *)
Theorem cache_stores (attributes : pyval) (w : World) (self : Response) (r : string)
  (st : gmap string pyval) :
  Response__init__ attributes w = (Ok self, w) ->
  getattribute self "ip" = Ok (PStr r) ->
  shelves w !! joinpath (module_dir w) _CACHE_FILE = Some st ->
  exists w',
    cache self w = (Ok tt, w')
    /\ shelves w'
       = <[joinpath (module_dir w) _CACHE_FILE := <[r := PDict (__dict__ self)]> st]>
           (shelves w)
    /\ files w' = files w.
Proof.
  intros Hbuilt Hip Hst.
  apply Response_init_built in Hbuilt as (_ & _ & _ & Hpath).
  eexists. split.
  - unfold cache. rewrite Hip, Hpath. run_using ltac:(rewrite ?Hst). reflexivity.
  - split; reflexivity.
Qed.

Lemma cache_stores_witness :
  Response__init__ (PDict girona_payload) keyed_world = (Ok girona, keyed_world)
  /\ getattribute girona "ip" = Ok (PStr "1.2.3.4")
  /\ shelves keyed_world !! joinpath (module_dir keyed_world) _CACHE_FILE = Some ∅
  /\ exists w',
      cache girona keyed_world = (Ok tt, w')
      /\ shelves w'
         = <[joinpath (module_dir keyed_world) _CACHE_FILE
               := <["1.2.3.4" := PDict (__dict__ girona)]> ∅]> (shelves keyed_world)
      /\ files w' = files keyed_world.
Proof.
  split; [reflexivity|]. split; [reflexivity|]. split; [reflexivity|].
  apply (cache_stores (PDict girona_payload) keyed_world girona "1.2.3.4" ∅);
    reflexivity.
Defined.

(** X3: what [uncache] does to a store that exists, for a record whose [ip]
    is the string [r]: nothing unless the store has a true entry under the key
    ['ip']; with one, it deletes the entry under [r] or raises [KeyError]. *)
Theorem uncache_spec (self : Response) (r path : string) (w : World)
  (st : gmap string pyval) :
  getattribute self "ip" = Ok (PStr r) ->
  cache_path self = Ok path ->
  shelves w !! path = Some st ->
  exists w',
    uncache self w
    = (if truthy (default PNone (st !! "ip"))
       then match st !! r with
            | Some _ => Ok tt
            | None => Raise (KeyError r)
            end
       else Ok tt, w')
    /\ shelves w'
       = if truthy (default PNone (st !! "ip"))
         then match st !! r with
              | Some _ => <[path := delete r st]> (shelves w)
              | None => shelves w
              end
         else shelves w.
Proof.
  intros Hip Hpath Hst. unfold uncache. rewrite Hip, Hpath.
  run_using ltac:(rewrite ?Hst).
  destruct (st !! "ip") as [v|]; run_eff.
  - destruct (truthy v); run_using ltac:(rewrite ?Hst).
    + destruct (st !! r); eexists; split; reflexivity.
    + eexists; split; reflexivity.
  - eexists; split; reflexivity.
Qed.

Lemma uncache_spec_witness :
  getattribute girona "ip" = Ok (PStr "1.2.3.4")
  /\ cache_path girona = Ok "/opt/geoapy/cache"
  /\ exists st,
      shelves girona_cached !! "/opt/geoapy/cache" = Some st
      /\ exists w',
          uncache girona girona_cached
          = (if truthy (default PNone (st !! "ip"))
             then match st !! "1.2.3.4" with
                  | Some _ => Ok tt
                  | None => Raise (KeyError "1.2.3.4")
                  end
             else Ok tt, w')
          /\ shelves w'
             = if truthy (default PNone (st !! "ip"))
               then match st !! "1.2.3.4" with
                    | Some _ => <["/opt/geoapy/cache" := delete "1.2.3.4" st]>
                                  (shelves girona_cached)
                    | None => shelves girona_cached
                    end
               else shelves girona_cached.
Proof.
  split; [reflexivity|]. split; [reflexivity|].
  exists (<["1.2.3.4" := PDict (__dict__ girona)]> ∅). split; [vm_compute; reflexivity|].
  apply (uncache_spec girona "1.2.3.4" "/opt/geoapy/cache" girona_cached);
    vm_compute; reflexivity.
Defined.


(** The run of [get] on a hit of the cache. *)
Lemma get_cache_hit_run (ip key : string) (fields excluded_fields : option (list string))
  (w : World) (st : gmap string pyval) (v : pyval) :
  files w !! joinpath (module_dir w) __KEY_FILE = Some key ->
  shelves w !! joinpath (module_dir w) _CACHE_FILE = Some st ->
  st !! ip = Some v ->
  truthy v = true ->
  ip <> EmptyString ->
  get (Some ip) fields excluded_fields true w
  = (match init_fields _FIELDS (PStr ip) {| __dict__ := [] |} with
     | Ok self => Ok (setattr self "currentfolder" (PPath (module_dir w)))
     | Raise e => Raise e
     end,
     logged [ EvShelveGet (joinpath (module_dir w) _CACHE_FILE) ip;
              EvShelveOpen (joinpath (module_dir w) _CACHE_FILE) "c";
              EvRead (joinpath (module_dir w) __KEY_FILE);
              EvExists (joinpath (module_dir w) __KEY_FILE) ] w).
Proof.
  intros Hkey Hst Hv Htrue Hip.
  assert (Hgiven : given_str (Some ip) = true).
  { unfold given_str, truthy. destruct (String.eqb_spec ip EmptyString); [contradiction|].
    reflexivity. }
  unfold get, getkey. rewrite Hgiven. cbn [andb].
  run_using ltac:(rewrite ?Hkey).
  match goal with
  | |- context [retreivefromcache ip ?w1] =>
      rewrite (retreivefromcache_hit ip w1 st v Hst Hv Htrue)
  end.
  destruct (init_fields _FIELDS (PStr ip) {| __dict__ := [] |}); reflexivity.
Qed.

(** X5: a hit of the cache ends [get] at once: the key is read, the store is
    opened and asked for [ip], no request is sent, and the outcome is the
    one of the constructor applied to the string [ip]. *)
Theorem get_cache_hit (ip key : string) (fields excluded_fields : option (list string))
  (w : World) (st : gmap string pyval) (v : pyval) :
  files w !! joinpath (module_dir w) __KEY_FILE = Some key ->
  shelves w !! joinpath (module_dir w) _CACHE_FILE = Some st ->
  st !! ip = Some v ->
  truthy v = true ->
  ip <> EmptyString ->
  get (Some ip) fields excluded_fields true w
  = (match init_fields _FIELDS (PStr ip) {| __dict__ := [] |} with
     | Ok self => Ok (setattr self "currentfolder" (PPath (module_dir w)))
     | Raise e => Raise e
     end,
     logged [ EvShelveGet (joinpath (module_dir w) _CACHE_FILE) ip;
              EvShelveOpen (joinpath (module_dir w) _CACHE_FILE) "c";
              EvRead (joinpath (module_dir w) __KEY_FILE);
              EvExists (joinpath (module_dir w) __KEY_FILE) ] w).
Proof. exact (get_cache_hit_run ip key fields excluded_fields w st v). Qed.

Lemma get_cache_hit_witness :
  files girona_cached !! joinpath (module_dir girona_cached) __KEY_FILE = Some "SECRET"
  /\ (exists st v,
        shelves girona_cached !! joinpath (module_dir girona_cached) _CACHE_FILE = Some st
        /\ st !! "1.2.3.4" = Some v
        /\ truthy v = true)
  /\ get (Some "1.2.3.4") None None true girona_cached
     = (match init_fields _FIELDS (PStr "1.2.3.4") {| __dict__ := [] |} with
        | Ok self => Ok (setattr self "currentfolder" (PPath (module_dir girona_cached)))
        | Raise e => Raise e
        end,
        logged [ EvShelveGet (joinpath (module_dir girona_cached) _CACHE_FILE) "1.2.3.4";
                 EvShelveOpen (joinpath (module_dir girona_cached) _CACHE_FILE) "c";
                 EvRead (joinpath (module_dir girona_cached) __KEY_FILE);
                 EvExists (joinpath (module_dir girona_cached) __KEY_FILE) ]
          girona_cached).
Proof.
  split; [vm_compute; reflexivity|]. split.
  - eexists. eexists. repeat split; vm_compute; reflexivity.
  - apply (get_cache_hit "1.2.3.4" "SECRET" None None girona_cached
             (<["1.2.3.4" := PDict (__dict__ girona)]> ∅) (PDict (__dict__ girona)));
      try (vm_compute; reflexivity).
    discriminate.
Defined.

(** ** A hit of the cache, for an address *)

Lemma str_contains_outside (f s : string) :
  starts_outside_ip f = true ->
  forallb ipchar (list_ascii_of_string s) = true ->
  str_contains f s = false.
Proof.
  destruct f as [|c0 rest]; [discriminate|]. cbn [starts_outside_ip].
  intros Hc0. apply negb_true_iff in Hc0.
  induction s as [|c t IH]; [reflexivity|].
  cbn [list_ascii_of_string forallb str_contains String.prefix].
  intros H. apply andb_prop in H as [Hc Ht].
  destruct (Ascii.ascii_dec c0 c) as [->|Hne]; [congruence|].
  rewrite (IH Ht). reflexivity.
Qed.

Lemma FIELDS_start_outside : forallb starts_outside_ip _FIELDS = true.
Proof. vm_compute. reflexivity. Qed.

Lemma chunk_ipchars (l : list ascii) : chunkb l = true -> forallb ipchar l = true.
Proof.
  intros H. apply chunkb_digits in H as [H _].
  rewrite forallb_forall in *. intros c Hc. unfold ipchar. now rewrite (H c Hc).
Qed.

(** An address that passes the check is made of digits, dots and at most a
    newline. *)
Lemma checkipformat_ipchars (ip : string) :
  checkipformat ip = Ok tt -> forallb ipchar (list_ascii_of_string ip) = true.
Proof.
  intros Hok. destruct (re_match ipv4 ip) eqn:Hm;
    [|unfold checkipformat in Hok; rewrite Hm in Hok; discriminate].
  apply re_match_ipv4 in Hm as (a & b & c & d & tl & -> & Ha & Hb & Hc & Hd & Htl).
  repeat (rewrite forallb_app || cbn [forallb]).
  rewrite (chunk_ipchars a Ha), (chunk_ipchars b Hb), (chunk_ipchars c Hc),
    (chunk_ipchars d Hd).
  destruct Htl as [->| ->]; reflexivity.
Qed.

(** On a string in which no field name occurs, the constructor does what it
    does on the empty payload. *)
Lemma init_fields_str_blank (ip : string) (fields : list string) : forall self,
  (forall f, In f fields -> str_contains f ip = false) ->
  init_fields fields (PStr ip) self = init_fields fields (PDict []) self.
Proof.
  induction fields as [|f rest IH]; intros self Hnone; [reflexivity|].
  cbn [init_fields contains rbind dict_get].
  rewrite (Hnone f) by now left.
  apply IH. intros g Hg. apply Hnone. now right.
Qed.

(** X6: for every address [checkipformat] accepts, a hit of the cache makes
    [get] return, without a request, the record of the empty payload: every
    field of the catalog is the empty string, whatever was cached. *)
Theorem get_cache_hit_blank (ip key : string) (fields excluded_fields : option (list string))
  (w : World) (st : gmap string pyval) (v : pyval) :
  checkipformat ip = Ok tt ->
  files w !! joinpath (module_dir w) __KEY_FILE = Some key ->
  shelves w !! joinpath (module_dir w) _CACHE_FILE = Some st ->
  st !! ip = Some v ->
  truthy v = true ->
  exists got,
    get (Some ip) fields excluded_fields true w
    = (Ok got,
       logged [ EvShelveGet (joinpath (module_dir w) _CACHE_FILE) ip;
                EvShelveOpen (joinpath (module_dir w) _CACHE_FILE) "c";
                EvRead (joinpath (module_dir w) __KEY_FILE);
                EvExists (joinpath (module_dir w) __KEY_FILE) ] w)
    /\ Response__init__ (PDict []) w = (Ok got, w)
    /\ forall f, In f _FIELDS -> getattribute got f = Ok (PStr "").
Proof.
  intros Hok Hkey Hst Hv Htrue.
  assert (Hne : ip <> EmptyString).
  { intros ->. vm_compute in Hok. discriminate. }
  assert (Hblank : init_fields _FIELDS (PStr ip) {| __dict__ := [] |}
                   = init_fields _FIELDS (PDict []) {| __dict__ := [] |}).
  { apply init_fields_str_blank. intros f Hf.
    apply str_contains_outside; [|now apply checkipformat_ipchars].
    pose proof FIELDS_start_outside as Hall. rewrite forallb_forall in Hall.
    now apply Hall. }
  destruct (init_fields_dict _FIELDS [] {| __dict__ := [] |}) as [self0 [Hrun Hget]].
  exists (setattr self0 "currentfolder" (PPath (module_dir w))).
  split; [|split].
  - rewrite (get_cache_hit_run ip key fields excluded_fields w st v Hkey Hst Hv Htrue Hne).
    now rewrite Hblank, Hrun.
  - unfold Response__init__. run_eff. now rewrite Hrun.
  - intros f Hf. unfold getattribute. cbn [__dict__ setattr].
    rewrite dict_get_set_ne.
    + rewrite Hget. apply in_FIELDS_In in Hf. unfold in_FIELDS in Hf. now rewrite Hf.
    + intros <-. revert Hf. rewrite <- list_elem_of_In.
      apply (bool_decide_unpack _). vm_compute. reflexivity.
Qed.

Lemma get_cache_hit_blank_witness :
  checkipformat "1.2.3.4" = Ok tt
  /\ files girona_cached !! joinpath (module_dir girona_cached) __KEY_FILE = Some "SECRET"
  /\ (exists st v,
        shelves girona_cached !! joinpath (module_dir girona_cached) _CACHE_FILE = Some st
        /\ st !! "1.2.3.4" = Some v
        /\ truthy v = true)
  /\ exists got,
      get (Some "1.2.3.4") None None true girona_cached
      = (Ok got,
         logged [ EvShelveGet (joinpath (module_dir girona_cached) _CACHE_FILE) "1.2.3.4";
                  EvShelveOpen (joinpath (module_dir girona_cached) _CACHE_FILE) "c";
                  EvRead (joinpath (module_dir girona_cached) __KEY_FILE);
                  EvExists (joinpath (module_dir girona_cached) __KEY_FILE) ]
           girona_cached)
      /\ Response__init__ (PDict []) girona_cached = (Ok got, girona_cached)
      /\ forall f, In f _FIELDS -> getattribute got f = Ok (PStr "").
Proof.
  split; [vm_compute; reflexivity|]. split; [vm_compute; reflexivity|]. split.
  - eexists. eexists. repeat split; vm_compute; reflexivity.
  - apply (get_cache_hit_blank "1.2.3.4" "SECRET" None None girona_cached
             (<["1.2.3.4" := PDict (__dict__ girona)]> ∅) (PDict (__dict__ girona)));
      vm_compute; reflexivity.
Defined.

(** ** The field list, once more *)

Lemma append_cons (c : ascii) (s t : string) : String c s +:+ t = String c (s +:+ t).
Proof. reflexivity. Qed.

Lemma split_at_free (sep : ascii) (s : string) :
  free_of sep s = true -> split_at sep s = [s].
Proof.
  induction s as [|c t IH]; [reflexivity|]. cbn [free_of split_at].
  intros H. apply andb_prop in H as [Hc Ht]. apply negb_true_iff in Hc.
  now rewrite Hc, (IH Ht).
Qed.

Lemma split_at_append (sep : ascii) (s rest : string) :
  free_of sep s = true ->
  split_at sep (s +:+ String sep rest) = s :: split_at sep rest.
Proof.
  induction s as [|c t IH]; intros H.
  - change (EmptyString +:+ String sep rest) with (String sep rest).
    cbn [split_at]. now rewrite Ascii.eqb_refl.
  - cbn [free_of] in H. apply andb_prop in H as [Hc Ht]. apply negb_true_iff in Hc.
    rewrite append_cons. cbn [split_at]. now rewrite Hc, (IH Ht).
Qed.

Lemma split_at_join (sep : ascii) (l : list string) :
  l <> [] ->
  Forall (fun s => free_of sep s = true) l ->
  split_at sep (join (String sep EmptyString) l) = l.
Proof.
  intros Hne Hall. induction Hall as [|x l Hx Hall IH]; [contradiction|].
  destruct l as [|y l'].
  - cbn [join String.concat]. now apply split_at_free.
  - change (join (String sep EmptyString) (x :: y :: l'))
      with (x +:+ String sep EmptyString +:+ join (String sep EmptyString) (y :: l')).
    change (String sep EmptyString +:+ ?t) with (String sep t).
    rewrite (split_at_append sep x _ Hx). f_equal. now apply IH.
Qed.

Lemma FIELDS_comma_free : forallb (free_of ","%char) _FIELDS = true.
Proof. vm_compute. reflexivity. Qed.

Lemma formatfields_known (fields : list string) (s : string) :
  formatfields fields = Ok s -> Forall (fun x => In x _FIELDS) fields.
Proof.
  unfold formatfields. intros H.
  destruct (check_fields_spec fields)
    as [(known & f & rest & _ & _ & _ & Hrun) | [Hall _]]; [|exact Hall].
  rewrite Hrun in H. discriminate.
Qed.

Lemma formatfields_of_known (fields : list string) :
  Forall (fun x => In x _FIELDS) fields -> formatfields fields = Ok (join "," fields).
Proof.
  intros Hall. unfold formatfields.
  destruct (check_fields_spec fields)
    as [(known & f & rest & -> & _ & Hf & _) | [_ Hrun]].
  - exfalso. apply Hf. rewrite List.Forall_forall in Hall. apply Hall.
    apply in_or_app. right. now left.
  - rewrite Hrun. cbn [rbind]. f_equal. f_equal.
    clear Hrun. induction Hall as [|x l Hx _ IH]; [reflexivity|].
    cbn [map]. now rewrite (lower_FIELDS x Hx), IH.
Qed.

(** X7: [formatfields] returns exactly on the sequences whose elements are
    all in the catalog, and what it returns is these elements as they were
    given, joined with commas: the lower-casing changes nothing. *)
Theorem formatfields_returns (fields : list string) (s : string) :
  formatfields fields = Ok s
  <-> Forall (fun x => In x _FIELDS) fields /\ s = join "," fields.
Proof.
  split.
  - intros H. split; [now apply (formatfields_known fields s) |
                      now apply formatfields_unchanged].
  - intros [Hall ->]. now apply formatfields_of_known.
Qed.

(** X8: the list of a request can be read back: splitting at the commas
    what [formatfields] returned for a sequence that is not empty gives the
    sequence. *)
Theorem formatfields_split (fields : list string) (s : string) :
  fields <> [] ->
  formatfields fields = Ok s ->
  split_at ","%char s = fields.
Proof.
  intros Hne H. pose proof (formatfields_known fields s H) as Hall.
  apply formatfields_unchanged in H as ->.
  apply (split_at_join ","%char fields Hne).
  pose proof FIELDS_comma_free as Hfree. rewrite forallb_forall in Hfree.
  rewrite List.Forall_forall in *. intros x Hx. apply Hfree, Hall, Hx.
Qed.

Lemma formatfields_split_witness :
  ["city"; "asn"] <> []
  /\ formatfields ["city"; "asn"] = Ok "city,asn"
  /\ split_at ","%char "city,asn" = ["city"; "asn"].
Proof.
  split; [discriminate|]. split; [reflexivity|].
  apply (formatfields_split ["city"; "asn"] "city,asn"); [discriminate | reflexivity].
Defined.

(** X9: the names [listfields] returns are exactly the names [formatfields]
    lets through: a name of the list comes back unchanged, any other string
    raises [FieldDoesNotExist] with that string. *)
Theorem listfields_accepted (f : string) :
  (In f listfields <-> formatfields [f] = Ok f)
  /\ (~ In f listfields <-> formatfields [f] = Raise (FieldDoesNotExist f)).
Proof.
  unfold listfields, formatfields. cbn [check_fields].
  destruct (in_FIELDS f) eqn:Hf.
  - apply in_FIELDS_In in Hf. cbn [rbind map join String.concat].
    rewrite (lower_FIELDS f Hf). split; split; intros H; try easy.
  - assert (Hn : ~ In f _FIELDS).
    { intros Hin. apply in_FIELDS_In in Hin. congruence. }
    cbn [rbind]. split; split; intros H; try easy.
Qed.

(** ** The request and its checks *)



Lemma getkey_run (key : string) (w : World) :
  files w !! joinpath (module_dir w) __KEY_FILE = Some key ->
  getkey w
  = (Ok key, logged [ EvRead (joinpath (module_dir w) __KEY_FILE);
                      EvExists (joinpath (module_dir w) __KEY_FILE) ] w).
Proof.
  intros Hkey. unfold getkey. run_using ltac:(rewrite ?Hkey). reflexivity.
Qed.




(** [fetch] on arguments that fail a check: nothing is sent. *)
Lemma fetch_rejects (q : string) (ip : option string)
  (fields excluded_fields : option (list string)) (w : World) (e : pyexn) :
  (exists s, sent_ip ip = Some s /\ checkipformat s = Raise e)
  \/ ((forall s, sent_ip ip = Some s -> checkipformat s = Ok tt)
      /\ ((exists f l, fields = Some (f :: l) /\ formatfields (f :: l) = Raise e)
          \/ ((forall l, fields = Some l -> Forall (fun x => In x _FIELDS) l)
              /\ exists f l, excluded_fields = Some (f :: l)
                             /\ formatfields (f :: l) = Raise e))) ->
  fetch q ip fields excluded_fields w = (Raise e, w).
Proof.
  assert (Hfmt : forall l, Forall (fun x => In x _FIELDS) l ->
                 formatfields l = Ok (join "," l)).
  { intros l Hall. unfold formatfields.
    destruct (check_fields_spec l) as [(known & f & rest & -> & _ & Hn & _) | [_ Hrun]].
    - exfalso. apply Hn. rewrite List.Forall_forall in Hall. apply Hall.
      apply in_or_app. right. now left.
    - rewrite Hrun. cbn [rbind]. f_equal. f_equal. clear Hrun.
      induction Hall as [|x l Hx _ IH]; [reflexivity|].
      cbn [map]. now rewrite (lower_FIELDS x Hx), IH. }
  assert (Hsent : forall s, sent_ip ip = Some s ->
                  ip = Some s /\ given_str ip = true).
  { intros s. destruct ip as [s0|]; cbn [sent_ip given_str truthy]; [|discriminate].
    destruct (String.eqb s0 EmptyString); [discriminate|]. intros [= ->]. auto. }
  assert (Hpass : (forall s, sent_ip ip = Some s -> checkipformat s = Ok tt) ->
    forall k : string -> Eff Response,
    ((query_str <- (if given_str ip
                    then _ <- lift (checkipformat (default EmptyString ip)) ;;
                         ret (q +:+ "&ip=" +:+ default EmptyString ip)
                    else ret q) ;; k query_str)%eff w
     = k (if given_str ip then q +:+ "&ip=" +:+ default EmptyString ip else q) w)).
  { intros Hip k. destruct ip as [s|]; cbn [given_str truthy]; [|reflexivity].
    destruct (String.eqb_spec s EmptyString) as [->|Hs]; cbn [negb]; [reflexivity|].
    cbn [default from_option id]. rewrite (Hip s); [reflexivity|].
    cbn [sent_ip]. destruct (String.eqb_spec s EmptyString); [contradiction|reflexivity]. }
  unfold fetch.
  intros [(s & Hs & Hbad) | [Hip [(f & l & -> & Hbad) | [Hf (f & l & -> & Hbad)]]]].
  - destruct (Hsent s Hs) as [-> Hg]. rewrite Hg. cbn [default from_option id].
    rewrite Hbad. reflexivity.
  - rewrite (Hpass Hip). cbn [given_list default from_option id]. rewrite Hbad. reflexivity.
  - rewrite (Hpass Hip).
    destruct fields as [[|g gs]|]; cbn [given_list default from_option id];
      try rewrite (Hfmt (g :: gs)) by (now apply Hf);
      rewrite Hbad; reflexivity.
Qed.

(** X11: the checks come before the request and in the order [ip],
    [fields], [excluded_fields]: with a key registered and the cache not
    consulted, the first argument that fails its check decides the exception
    of [get], whatever the later arguments are, and nothing is sent. *)
Theorem get_rejects (key : string) (ip : option string)
  (fields excluded_fields : option (list string)) (w : World) (e : pyexn) :
  files w !! joinpath (module_dir w) __KEY_FILE = Some key ->
  (exists s, sent_ip ip = Some s /\ checkipformat s = Raise e)
  \/ ((forall s, sent_ip ip = Some s -> checkipformat s = Ok tt)
      /\ ((exists f l, fields = Some (f :: l) /\ formatfields (f :: l) = Raise e)
          \/ ((forall l, fields = Some l -> Forall (fun x => In x _FIELDS) l)
              /\ exists f l, excluded_fields = Some (f :: l)
                             /\ formatfields (f :: l) = Raise e))) ->
  get ip fields excluded_fields false w
  = (Raise e, logged [ EvRead (joinpath (module_dir w) __KEY_FILE);
                       EvExists (joinpath (module_dir w) __KEY_FILE) ] w).
Proof.
  intros Hkey Hbad.
  unfold get. cbn [andb]. unfold bind at 1. rewrite (getkey_run key w Hkey).
  now apply fetch_rejects.
Qed.

Lemma get_rejects_witness :
  files keyed_world !! joinpath (module_dir keyed_world) __KEY_FILE = Some "SECRET"
  /\ checkipformat "300.1.1.1" = Raise (IncorrectIpFormat "ipv4")
  /\ get (Some "300.1.1.1") (Some ["bogus"]) None false keyed_world
     = (Raise (IncorrectIpFormat "ipv4"),
        logged [ EvRead "/opt/geoapy/key.txt"; EvExists "/opt/geoapy/key.txt" ]
          keyed_world).
Proof.
  split; [reflexivity|]. split; [vm_compute; reflexivity|].
  refine (get_rejects "SECRET" (Some "300.1.1.1") (Some ["bogus"]) None keyed_world
            (IncorrectIpFormat "ipv4") _ _).
  - reflexivity.
  - left. exists "300.1.1.1". split; [reflexivity | vm_compute; reflexivity].
Defined.

Lemma fetch_shelves (q : string) (ip : option string)
  (fields excluded_fields : option (list string)) (w : World) :
  shelves (snd (fetch q ip fields excluded_fields w)) = shelves w
  /\ files (snd (fetch q ip fields excluded_fields w)) = files w.
Proof.
  destruct (fetch q ip fields excluded_fields w) as [out w'] eqn:Hrun.
  apply fetch_run in Hrun as [->|(url & -> & _)]; split; reflexivity.
Qed.

(** X12: consulting the cache leaves a store behind. With a key registered
    and no store, [get] with [cache_search] and an address that is not empty
    creates the store, empty, before the address is checked: the store exists
    afterwards whatever the outcome of [get] is. *)
Theorem get_creates_store (key s : string) (fields excluded_fields : option (list string))
  (w : World) :
  files w !! joinpath (module_dir w) __KEY_FILE = Some key ->
  shelves w !! joinpath (module_dir w) _CACHE_FILE = None ->
  s <> EmptyString ->
  shelves (snd (get (Some s) fields excluded_fields true w))
  = <[joinpath (module_dir w) _CACHE_FILE := ∅]> (shelves w).
Proof.
  intros Hkey Hnone Hs.
  assert (Hg : given_str (Some s) = true).
  { cbn [given_str truthy]. destruct (String.eqb_spec s EmptyString); [contradiction|].
    reflexivity. }
  unfold get. rewrite Hg. cbn [andb]. unfold bind at 1. rewrite (getkey_run key w Hkey).
  cbn [default from_option id]. unfold bind at 1.
  set (w1 := logged _ w).
  assert (Hmiss : retreivefromcache s w1
                  = (Ok None,
                     set_shelves (<[joinpath (module_dir w) _CACHE_FILE := ∅]> (shelves w))
                       (logged [ EvShelveGet (joinpath (module_dir w) _CACHE_FILE) s;
                                 EvShelveOpen (joinpath (module_dir w) _CACHE_FILE) "c" ]
                          w1))).
  { unfold retreivefromcache, w1, logged.
    run_using ltac:(rewrite ?Hnone, ?lookup_insert_eq, ?lookup_empty). reflexivity. }
  rewrite Hmiss.
  match goal with
  | |- shelves (snd (fetch ?q ?i ?f ?x ?w2)) = _ =>
      rewrite (proj1 (fetch_shelves q i f x w2))
  end.
  reflexivity.
Qed.

Lemma get_creates_store_witness :
  files failing_world !! joinpath (module_dir failing_world) __KEY_FILE = Some "SECRET"
  /\ shelves failing_world !! joinpath (module_dir failing_world) _CACHE_FILE = None
  /\ fst (get (Some "not an address") None None true failing_world)
     = Raise (IncorrectIpFormat "ipv4")
  /\ shelves (snd (get (Some "not an address") None None true failing_world))
     = <[joinpath (module_dir failing_world) _CACHE_FILE := ∅]> (shelves failing_world).
Proof.
  split; [reflexivity|]. split; [reflexivity|]. split; [vm_compute; reflexivity|].
  apply (get_creates_store "SECRET" "not an address" None None failing_world);
    [reflexivity | reflexivity | discriminate].
Defined.

(** The constructor on a string in which a field name occurs. *)
Lemma init_fields_str_TypeError (ip : string) (fields : list string) : forall self,
  (exists f, In f fields /\ str_contains f ip = true) ->
  init_fields fields (PStr ip) self = Raise TypeError.
Proof.
  induction fields as [|g rest IH]; intros self (f & Hin & Hf); [contradiction|].
  cbn [init_fields contains rbind].
  destruct (str_contains g ip) eqn:Hg; [reflexivity|].
  apply IH. exists f. split; [|exact Hf].
  destruct Hin as [->|Hin]; [congruence | exact Hin].
Qed.

(** X13: a hit of the cache for a string in which a name of the catalog
    occurs (a host name such as [my-city.example], or the name itself) makes
    [get] raise [TypeError]: the constructor indexes the string with the
    name. No request is sent. *)
Theorem get_cache_hit_TypeError (ip key f : string)
  (fields excluded_fields : option (list string))
  (w : World) (st : gmap string pyval) (v : pyval) :
  files w !! joinpath (module_dir w) __KEY_FILE = Some key ->
  shelves w !! joinpath (module_dir w) _CACHE_FILE = Some st ->
  st !! ip = Some v ->
  truthy v = true ->
  In f _FIELDS ->
  str_contains f ip = true ->
  get (Some ip) fields excluded_fields true w
  = (Raise TypeError,
     logged [ EvShelveGet (joinpath (module_dir w) _CACHE_FILE) ip;
              EvShelveOpen (joinpath (module_dir w) _CACHE_FILE) "c";
              EvRead (joinpath (module_dir w) __KEY_FILE);
              EvExists (joinpath (module_dir w) __KEY_FILE) ] w).
Proof.
  intros Hkey Hst Hv Htrue Hf Hsub.
  assert (Hne : ip <> EmptyString).
  { intros ->. revert Hsub.
    assert (Hall : Forall (fun g => str_contains g EmptyString = false) _FIELDS)
      by (unfold _FIELDS; repeat constructor).
    rewrite List.Forall_forall in Hall. rewrite (Hall f Hf). discriminate. }
  rewrite (get_cache_hit_run ip key fields excluded_fields w st v Hkey Hst Hv Htrue Hne).
  rewrite (init_fields_str_TypeError ip _FIELDS); [reflexivity|].
  exists f. auto.
Qed.

Lemma get_cache_hit_TypeError_witness :
  files hosted_world !! joinpath (module_dir hosted_world) __KEY_FILE = Some "SECRET"
  /\ (exists st v,
        shelves hosted_world !! joinpath (module_dir hosted_world) _CACHE_FILE = Some st
        /\ st !! "city.example" = Some v /\ truthy v = true)
  /\ In "city" _FIELDS
  /\ str_contains "city" "city.example" = true
  /\ get (Some "city.example") None None true hosted_world
     = (Raise TypeError,
        logged [ EvShelveGet (joinpath (module_dir hosted_world) _CACHE_FILE) "city.example";
                 EvShelveOpen (joinpath (module_dir hosted_world) _CACHE_FILE) "c";
                 EvRead (joinpath (module_dir hosted_world) __KEY_FILE);
                 EvExists (joinpath (module_dir hosted_world) __KEY_FILE) ] hosted_world).
Proof.
  split; [vm_compute; reflexivity|]. split.
  { eexists. eexists. repeat split; vm_compute; reflexivity. }
  split; [cbn; tauto|]. split; [reflexivity|].
  refine (get_cache_hit_TypeError "city.example" "SECRET" "city" None None hosted_world
            (<["city.example" := PDict (__dict__ (built (PDict [("ip", PStr "city.example")])
                                                   keyed_world))]> ∅)
            (PDict (__dict__ (built (PDict [("ip", PStr "city.example")]) keyed_world)))
            _ _ _ _ _ _); try (vm_compute; reflexivity).
  cbn; tauto.
Defined.

(** [cache] on a record the constructor built, with a string for [ip]. *)
Lemma cache_run (attributes : pyval) (w : World) (self : Response) (r : string)
  (st : gmap string pyval) :
  Response__init__ attributes w = (Ok self, w) ->
  getattribute self "ip" = Ok (PStr r) ->
  shelves w !! joinpath (module_dir w) _CACHE_FILE = Some st ->
  cache self w
  = (Ok tt,
     set_shelves
       (<[joinpath (module_dir w) _CACHE_FILE := <[r := PDict (__dict__ self)]> st]>
          (shelves w))
       (logged [ EvShelveSet (joinpath (module_dir w) _CACHE_FILE) r;
                 EvShelveOpen (joinpath (module_dir w) _CACHE_FILE) "w" ] w)).
Proof.
  intros Hbuilt Hip Hst.
  apply Response_init_built in Hbuilt as (_ & _ & _ & Hpath).
  unfold cache. rewrite Hip, Hpath. run_using ltac:(rewrite ?Hst). reflexivity.
Qed.

(** X14: what [cache] wrote is found again. After [cache] on a record the
    constructor built, [retreivefromcache] for the [ip] of the record never
    reports a miss: it returns a record or raises. *)
Theorem cache_then_lookup (attributes : pyval) (w : World) (self : Response) (r : string)
  (st : gmap string pyval) :
  Response__init__ attributes w = (Ok self, w) ->
  getattribute self "ip" = Ok (PStr r) ->
  shelves w !! joinpath (module_dir w) _CACHE_FILE = Some st ->
  fst (cache self w) = Ok tt
  /\ fst (retreivefromcache r (snd (cache self w))) <> Ok None.
Proof.
  intros Hbuilt Hip Hst.
  rewrite (cache_run attributes w self r st Hbuilt Hip Hst). cbn [fst snd].
  split; [reflexivity|].
  match goal with
  | |- context [retreivefromcache r ?w1] =>
      rewrite (retreivefromcache_hit r w1
                 (<[r := PDict (__dict__ self)]> st) (PDict (__dict__ self)))
  end.
  - cbn [fst]. destruct (init_fields _FIELDS (PStr r) _); discriminate.
  - cbn [set_shelves logged module_dir shelves]. apply lookup_insert_eq.
  - apply lookup_insert_eq.
  - exact (Response_init_truthy attributes w w self Hbuilt).
Qed.

Lemma cache_then_lookup_witness :
  Response__init__ (PDict girona_payload) keyed_world = (Ok girona, keyed_world)
  /\ getattribute girona "ip" = Ok (PStr "1.2.3.4")
  /\ shelves keyed_world !! joinpath (module_dir keyed_world) _CACHE_FILE = Some ∅
  /\ fst (cache girona keyed_world) = Ok tt
  /\ fst (retreivefromcache "1.2.3.4" (snd (cache girona keyed_world))) <> Ok None.
Proof.
  split; [reflexivity|]. split; [reflexivity|]. split; [reflexivity|].
  apply (cache_then_lookup (PDict girona_payload) keyed_world girona "1.2.3.4" ∅);
    reflexivity.
Defined.

(** The [ip] of the record of a payload. *)
Lemma Response_init_payload_values (payload : list (string * pyval)) (w : World)
  (self : Response) :
  Response__init__ (PDict payload) w = (Ok self, w) ->
  getattribute self "ip" = Ok (default (PStr EmptyString) (dict_get payload "ip"))
  /\ cache_path self = Ok (joinpath (module_dir w) _CACHE_FILE).
Proof.
  intros Hbuilt. split; [|now apply Response_init_built in Hbuilt].
  destruct (init_fields_dict _FIELDS payload {| __dict__ := [] |}) as [self0 [Hrun Hget]].
  revert Hbuilt. unfold Response__init__. run_eff. rewrite Hrun. intros [= <-].
  unfold getattribute. cbn [__dict__ setattr].
  rewrite dict_get_set_ne by discriminate. rewrite Hget. reflexivity.
Qed.

(** X15: the key of an entry comes from the payload. A record built from a
    payload without the key ['ip'] is cached under the empty string, so all
    such records share one entry; a record built from a payload whose ['ip']
    is no string cannot be cached: [cache] opens the store and raises
    [AttributeError], and the store is as it was. *)
Theorem cache_key_of_payload (payload : list (string * pyval)) (w : World)
  (self : Response) (st : gmap string pyval) :
  Response__init__ (PDict payload) w = (Ok self, w) ->
  shelves w !! joinpath (module_dir w) _CACHE_FILE = Some st ->
  match dict_get payload "ip" with
  | None =>
      fst (cache self w) = Ok tt
      /\ shelves (snd (cache self w))
         = <[joinpath (module_dir w) _CACHE_FILE
               := <[EmptyString := PDict (__dict__ self)]> st]> (shelves w)
  | Some (PStr r) =>
      fst (cache self w) = Ok tt
      /\ shelves (snd (cache self w))
         = <[joinpath (module_dir w) _CACHE_FILE := <[r := PDict (__dict__ self)]> st]>
             (shelves w)
  | Some _ =>
      fst (cache self w) = Raise AttributeError
      /\ shelves (snd (cache self w)) = shelves w
      /\ trace (snd (cache self w))
         = EvShelveOpen (joinpath (module_dir w) _CACHE_FILE) "w" :: trace w
  end.
Proof.
  intros Hbuilt Hst.
  destruct (Response_init_payload_values payload w self Hbuilt) as [Hip Hpath].
  destruct (dict_get payload "ip") as [v|] eqn:Hv; cbn [default from_option id] in Hip.
  - destruct v; unfold cache; rewrite Hip, Hpath; run_using ltac:(rewrite ?Hst);
      repeat split; reflexivity.
  - rewrite (cache_run (PDict payload) w self EmptyString st Hbuilt Hip Hst).
    split; reflexivity.
Qed.

Lemma cache_key_of_payload_witness :
  Response__init__ (PDict []) keyed_world = (Ok (built (PDict []) keyed_world), keyed_world)
  /\ shelves keyed_world !! joinpath (module_dir keyed_world) _CACHE_FILE = Some ∅
  /\ fst (cache (built (PDict []) keyed_world) keyed_world) = Ok tt
  /\ shelves (snd (cache (built (PDict []) keyed_world) keyed_world))
     = <[joinpath (module_dir keyed_world) _CACHE_FILE
           := <[EmptyString := PDict (__dict__ (built (PDict []) keyed_world))]> ∅]>
         (shelves keyed_world).
Proof.
  split; [reflexivity|]. split; [reflexivity|].
  exact (cache_key_of_payload [] keyed_world (built (PDict []) keyed_world) ∅
           eq_refl eq_refl).
Defined.

Lemma init_fields_not_dict (v : pyval) (fields : list string) : forall self,
  is_dict v = false ->
  init_fields fields v self
  = if existsb (trips v) fields then Raise TypeError
    else init_fields fields (PDict []) self.
Proof.
  intros self Hv. revert self.
  induction fields as [|f rest IH]; intros self; [reflexivity|].
  cbn [init_fields existsb]. unfold trips at 1.
  destruct v; try discriminate Hv; cbn [contains rbind getitem dict_get];
    try reflexivity.
  - destruct (str_contains f s); cbn [orb]; [reflexivity | apply IH].
  - destruct (existsb _ l); cbn [orb]; [reflexivity | apply IH].
Qed.

(** X16: the constructor on an object that is no dict (the body of an answer
    that is a JSON array, string, number or null, or the string
    [retreivefromcache] passes) never reads a value from it: it raises
    [TypeError] when the test [field in attributes] raises or holds for some
    field of the catalog, and builds the record of the empty payload
    otherwise. *)
Theorem Response_init_not_dict (v : pyval) (w : World) :
  is_dict v = false ->
  Response__init__ v w
  = if existsb (trips v) _FIELDS then (Raise TypeError, w)
    else Response__init__ (PDict []) w.
Proof.
  intros Hv. unfold Response__init__. run_eff.
  rewrite (init_fields_not_dict v _FIELDS _ Hv).
  destruct (existsb (trips v) _FIELDS); reflexivity.
Qed.

Lemma Response_init_not_dict_witness :
  is_dict (PList [PStr "city"; PInt 7]) = false
  /\ Response__init__ (PList [PStr "city"; PInt 7]) fresh_world
     = (Raise TypeError, fresh_world)
  /\ Response__init__ PNone fresh_world = (Raise TypeError, fresh_world)
  /\ Response__init__ (PList [PInt 7]) fresh_world
     = Response__init__ (PDict []) fresh_world.
Proof.
  split; [reflexivity|]. split; [|split].
  - exact (Response_init_not_dict (PList [PStr "city"; PInt 7]) fresh_world eq_refl).
  - exact (Response_init_not_dict PNone fresh_world eq_refl).
  - exact (Response_init_not_dict (PList [PInt 7]) fresh_world eq_refl).
Defined.




Lemma chunkb_length (l : list ascii) : chunkb l = true -> (1 <= length l <= 3)%nat.
Proof.
  destruct l as [|a [|b [|c [|? ?]]]]; try discriminate; cbn [length]; lia.
Qed.

Lemma length_list_ascii (s : string) :
  length (list_ascii_of_string s) = String.length s.
Proof. induction s as [|c t IH]; [reflexivity|]. cbn. now rewrite IH. Qed.

(** X19: what passes the address check is short and plain: a string
    [checkipformat] accepts has 7 to 16 characters, each a digit, a dot or
    a newline, so it holds none of the characters that separate the
    parameters of the query. *)
Theorem checkipformat_shape (ip : string) :
  checkipformat ip = Ok tt ->
  (7 <= String.length ip <= 16)%nat
  /\ forallb ipchar (list_ascii_of_string ip) = true
  /\ free_of "&"%char ip = true /\ free_of "="%char ip = true.
Proof.
  intros Hok. pose proof (checkipformat_ipchars ip Hok) as Hchars.
  split; [|split; [exact Hchars|]].
  - destruct (re_match ipv4 ip) eqn:Hm;
      [|unfold checkipformat in Hok; rewrite Hm in Hok; discriminate].
    apply re_match_ipv4 in Hm as (a & b & c & d & tl & E & Ha & Hb & Hc & Hd & Htl).
    rewrite <- length_list_ascii, E.
    apply chunkb_length in Ha, Hb, Hc, Hd.
    repeat (rewrite length_app || cbn [length]).
    destruct Htl as [->| ->]; cbn [length]; lia.
  - clear Hok. induction ip as [|c t IH]; [split; reflexivity|].
    cbn [list_ascii_of_string forallb] in Hchars.
    apply andb_prop in Hchars as [Hc Ht]. destruct (IH Ht) as [IH1 IH2].
    cbn [free_of]. rewrite IH1, IH2.
    assert (Hamp : Ascii.eqb c "&"%char = false /\ Ascii.eqb c "="%char = false).
    { revert Hc. clear. destruct c as [[] [] [] [] [] [] [] []]; vm_compute;
        intros H; try discriminate H; split; reflexivity. }
    destruct Hamp as [-> ->]. split; reflexivity.
Qed.

Lemma checkipformat_shape_witness :
  checkipformat "192.168.1.1" = Ok tt
  /\ (7 <= String.length "192.168.1.1" <= 16)%nat
  /\ forallb ipchar (list_ascii_of_string "192.168.1.1") = true
  /\ free_of "&"%char "192.168.1.1" = true /\ free_of "="%char "192.168.1.1" = true.
Proof.
  split; [vm_compute; reflexivity|].
  apply (checkipformat_shape "192.168.1.1"). vm_compute. reflexivity.
Defined.

Lemma sends_none_pure {A : Type} (f : World -> result A) :
  sends_at_most 0 (fun w => (f w, w)).
Proof. intros w. exists []. split; [reflexivity | cbn; lia]. Qed.

Lemma sends_at_most_bind {A B : Type} (n m : nat) (c : Eff A) (k : A -> Eff B) :
  sends_at_most n c -> (forall a, sends_at_most m (k a)) ->
  sends_at_most (n + m) (bind c k).
Proof.
  intros Hc Hk w. unfold bind. destruct (Hc w) as (evs1 & Ht1 & Hn1).
  destruct (c w) as [[a|e] w1]; cbn [snd] in *.
  - destruct (Hk a w1) as (evs2 & Ht2 & Hn2). exists (evs2 ++ evs1). split.
    + now rewrite Ht2, Ht1, app_assoc.
    + rewrite List.filter_app, length_app. lia.
  - exists evs1. split; [exact Ht1 | lia].
Qed.

Lemma sends_at_most_log (e : event) :
  sends_at_most (if is_http e then 1 else 0) (log e).
Proof.
  intros w. exists [e]. split; [reflexivity|]. cbn [List.filter].
  destruct (is_http e); cbn; lia.
Qed.

Lemma sends_none_quiet {A : Type} (e : event) (f : World -> result A * World) :
  is_http e = false ->
  (forall w, trace (snd (f w)) = trace w) ->
  sends_at_most 0 (bind (log e) (fun _ => f)).
Proof.
  intros He Hf w. exists [e]. split.
  - unfold bind, log. cbn [fst snd]. now rewrite Hf.
  - cbn [List.filter]. rewrite He. cbn. lia.
Qed.

Lemma sends_none_Response_init (v : pyval) : sends_at_most 0 (Response__init__ v).
Proof.
  intros w. exists []. split; [|cbn; lia].
  unfold Response__init__. run_eff. destruct (init_fields _FIELDS v _); reflexivity.
Qed.

Lemma sends_none_getkey : sends_at_most 0 getkey.
Proof.
  intros w. unfold getkey.
  destruct (files w !! joinpath (module_dir w) __KEY_FILE) as [key|] eqn:Hkey;
    run_using ltac:(rewrite ?Hkey).
  - exists [ EvRead (joinpath (module_dir w) __KEY_FILE);
             EvExists (joinpath (module_dir w) __KEY_FILE) ].
    split; [reflexivity | cbn; lia].
  - exists [ EvExists (joinpath (module_dir w) __KEY_FILE) ].
    split; [reflexivity | cbn; lia].
Qed.

Lemma sends_none_retreivefromcache (ip : string) : sends_at_most 0 (retreivefromcache ip).
Proof.
  intros w. unfold retreivefromcache, Response__init__. run_eff.
  destruct (shelves w !! joinpath (module_dir w) _CACHE_FILE); run_eff;
    match goal with
    | |- context [truthy ?v] => destruct (truthy v)
    end; run_eff;
    try destruct (init_fields _FIELDS (PStr ip) {| __dict__ := [] |});
    exists [ EvShelveGet (joinpath (module_dir w) _CACHE_FILE) ip;
             EvShelveOpen (joinpath (module_dir w) _CACHE_FILE) "c" ];
    (split; [reflexivity | cbn; lia]).
Qed.

Lemma sends_one_fetch (q : string) (ip : option string)
  (fields excluded_fields : option (list string)) :
  sends_at_most 1 (fetch q ip fields excluded_fields).
Proof.
  intros w. destruct (fetch q ip fields excluded_fields w) as [out w'] eqn:Hrun.
  apply fetch_run in Hrun as [->|(url & -> & _)]; cbn [snd].
  - exists []. split; [reflexivity | cbn; lia].
  - exists [EvHttpGet url]. split; [reflexivity | cbn; lia].
Qed.

(** X20: one call, one request at most. Whatever its arguments and the
    state of the key file, the store and the provider, [get] sends no more
    than one request. *)
Theorem get_sends_at_most_one (ip : option string)
  (fields excluded_fields : option (list string)) (cache_search : bool) (w : World) :
  exists evs,
    trace (snd (get ip fields excluded_fields cache_search w)) = evs ++ trace w
    /\ (length (List.filter is_http evs) <= 1)%nat.
Proof.
  revert w. change (sends_at_most 1 (get ip fields excluded_fields cache_search)).
  unfold get. apply (sends_at_most_bind 0 1); [apply sends_none_getkey|]. intros key.
  destruct (cache_search && given_str ip); [|apply sends_one_fetch].
  apply (sends_at_most_bind 0 1); [apply sends_none_retreivefromcache|].
  intros [value|]; [|apply sends_one_fetch].
  intros w. exists []. split; [reflexivity | cbn; lia].
Qed.

Lemma Response_init_outcome (v : pyval) (w1 w2 : World) :
  module_dir w1 = module_dir w2 ->
  fst (Response__init__ v w1) = fst (Response__init__ v w2).
Proof.
  intros Hdir. unfold Response__init__. run_eff. rewrite Hdir.
  destruct (init_fields _FIELDS v _); reflexivity.
Qed.

Lemma respond_outcome (r : HttpResponse) (w1 w2 : World) :
  module_dir w1 = module_dir w2 ->
  fst (respond r w1) = fst (respond r w2).
Proof.
  intros Hdir. unfold respond.
  repeat match goal with
         | |- context [if ?b then _ else _] => destruct b
         end; try reflexivity.
  run_eff. destruct (json r) as [body|e]; [|reflexivity].
  apply (Response_init_outcome body). exact Hdir.
Qed.

(** The outcome of [fetch] depends on the world through the provider and the
    directory of the module only. *)
Lemma fetch_outcome (q : string) (ip : option string)
  (fields excluded_fields : option (list string)) (w1 w2 : World) :
  module_dir w1 = module_dir w2 ->
  remote w1 = remote w2 ->
  fst (fetch q ip fields excluded_fields w1) = fst (fetch q ip fields excluded_fields w2).
Proof.
  intros Hdir Hrem. unfold fetch.
  destruct (given_str ip); [destruct (checkipformat (default EmptyString ip)) as [[]|e]|];
    (destruct (given_list fields);
     [destruct (formatfields (default [] fields)) as [include|e1]|]);
    (destruct (given_list excluded_fields);
     [destruct (formatfields (default [] excluded_fields)) as [exclude|e2]|]);
    run_eff; try reflexivity; rewrite Hrem;
    match goal with
    | |- context [remote w2 ?u] => destruct (remote w2 u) as [r|e3]; [|reflexivity]
    end;
    apply respond_outcome; exact Hdir.
Qed.

Lemma retreivefromcache_miss (ip : string) (w : World) :
  truthy (default PNone (store_of (joinpath (module_dir w) _CACHE_FILE) w !! ip)) = false ->
  exists w', retreivefromcache ip w = (Ok None, w')
             /\ module_dir w' = module_dir w /\ remote w' = remote w.
Proof.
  unfold retreivefromcache, store_of.
  destruct (shelves w !! joinpath (module_dir w) _CACHE_FILE) as [st|] eqn:Hst;
    cbv beta iota delta [default from_option id]; intros Hmiss.
  - run_using ltac:(rewrite ?Hst, ?Hmiss). eexists. repeat split.
  - run_using ltac:(rewrite ?Hst, ?lookup_insert_eq, ?lookup_empty).
    eexists. repeat split.
Qed.

(** X21: the cache matters on a hit only. With a key registered, when the
    store has no entry that is true under the address (or does not exist),
    [get] with [cache_search] ends as [get] without it does. *)
Theorem get_miss_outcome (key : string) (ip : option string)
  (fields excluded_fields : option (list string)) (w : World) :
  files w !! joinpath (module_dir w) __KEY_FILE = Some key ->
  (forall s, sent_ip ip = Some s ->
     truthy (default PNone (store_of (joinpath (module_dir w) _CACHE_FILE) w !! s)) = false) ->
  fst (get ip fields excluded_fields true w) = fst (get ip fields excluded_fields false w).
Proof.
  intros Hkey Hmiss. unfold get. cbn [andb].
  unfold bind at 1 3. rewrite (getkey_run key w Hkey).
  destruct ip as [s|]; cbn [given_str truthy]; [|reflexivity].
  destruct (String.eqb_spec s EmptyString) as [->|Hs]; cbn [negb]; [reflexivity|].
  specialize (Hmiss s). cbn [sent_ip] in Hmiss.
  destruct (String.eqb_spec s EmptyString); [contradiction|].
  specialize (Hmiss eq_refl).
  cbn [default from_option id]. unfold bind at 1.
  match goal with
  | |- context [retreivefromcache s ?w1] =>
      destruct (retreivefromcache_miss s w1 Hmiss) as (w2 & -> & Hdir & Hrem)
  end.
  apply fetch_outcome; assumption.
Qed.

Lemma get_miss_outcome_witness :
  files failing_world !! joinpath (module_dir failing_world) __KEY_FILE = Some "SECRET"
  /\ truthy (default PNone
               (store_of (joinpath (module_dir failing_world) _CACHE_FILE) failing_world
                  !! "8.8.8.8")) = false
  /\ fst (get (Some "8.8.8.8") None None true failing_world)
     = fst (get (Some "8.8.8.8") None None false failing_world).
Proof.
  split; [reflexivity|]. split; [vm_compute; reflexivity|].
  apply (get_miss_outcome "SECRET" (Some "8.8.8.8") None None failing_world);
    [reflexivity|].
  intros s [= <-]. vm_compute. reflexivity.
Defined.
